(** * projectA: authentication and media-asset handlers

    A shallow embedding of the request handlers of the backend
    ([auth.py], [routes_auth.py], [routes_media.py]) and the properties
    of its specification.

    The handlers are written in a small exception monad over a tree of
    calls: every call that leaves the three source files (document store,
    blob store, the utils helpers, the bcrypt and JWT libraries, the
    uploaded file object) is a node answered by an environment, which
    either returns a value or raises a Python exception.  Running a
    handler against an environment yields the outcome together with the
    trace of calls it made, so that "no write happened" is a statement
    about the trace.

    Conventions of the model:
    - documents and JWT claim sets are Python dicts: [gmap string json];
    - the clock is read at whole seconds: an instant is a number of
      seconds in [Z], and [isoformat()] is kept as the instant itself; a
      [timedelta] is a number of microseconds;
    - [await] is sequencing, and a point at which the cancellation of
      the request can surface; what a synchronous call raises is an
      instance of [Exception].

    The listing and search routes, which only forward to two operations
    of the document store of their own, are embedded apart, in the module
    [listing].  The aliases at the end of [auth.py] are not embedded. *)

From stdpp Require Import gmap strings list fin_maps.
From Stdlib Require Import ZArith String Ascii DecimalString.
Set Warnings "-register-all".
Open Scope Z_scope.
Open Scope string_scope.

(** ** Python values *)

(** JSON values as [json.loads] yields them; a number that is not an
    integer literal keeps its lexeme. *)
Inductive json : Type :=
| JNull
| JBool (b : bool)
| JInt (z : Z)
| JFloat (lexeme : string)
| JStr (s : string)
| JArr (l : list json)
| JObj (l : list (string * json)).

(** A Python dict with string keys. *)
Abbreviation dict := (gmap string json).

Definition bytes := string.

(** *** float *)

Definition digit_of (c : ascii) : option Z :=
  let n := Z.of_N (N_of_ascii c) in
  if Z.leb 48 n && Z.leb n 57 then Some (n - 48) else None.

(** The number that the digits at the head of [s] add to [acc], how
    many they are, and what follows them. *)
Fixpoint read_digits (acc count : Z) (s : string) : Z * Z * string :=
  match s with
  | String c r =>
      match digit_of c with
      | Some d => read_digits (10 * acc + d) (count + 1) r
      | None => (acc, count, s)
      end
  | EmptyString => (acc, count, s)
  end.

(** The decimal that the lexeme of a float denotes: whether it is
    negative, and [m] and [k] such that its magnitude is [m * 10^k]. *)
Definition decimal_of (lexeme : string) : option (bool * Z * Z) :=
  let '(negative, s1) :=
    match lexeme with
    | String "-"%char r => (true, r)
    | _ => (false, lexeme)
    end in
  let '(i, ni, s2) := read_digits 0 0 s1 in
  let '(m, nf, s3) :=
    match s2 with
    | String "."%char r => read_digits i 0 r
    | _ => (i, 0, s2)
    end in
  let '(e, s4) :=
    match s3 with
    | String c r =>
        if Ascii.eqb c "e" || Ascii.eqb c "E" then
          let '(minus, r1) :=
            match r with
            | String "-"%char r' => (true, r')
            | String "+"%char r' => (false, r')
            | _ => (false, r)
            end in
          let '(x, _, r2) := read_digits 0 0 r1 in
          (if minus then - x else x, r2)
        else (0, s3)
    | EmptyString => (0, s3)
    end in
  if Z.ltb 0 ni && String.eqb s4 "" then Some (negative, m, e - nf)
  else None.

(** [num / den] divided by [2^e], as a fraction. *)
Definition shifted (num den e : Z) : Z * Z :=
  if Z.leb 0 e then (num, den * 2 ^ e) else (num * 2 ^ (- e), den).

(** The integer nearest to [num / den], the even one of two. *)
Definition nearest_even (num den : Z) : Z :=
  let q := num / den in
  match Z.compare (2 * (num mod den)) den with
  | Lt => q
  | Gt => q + 1
  | Eq => if Z.even q then q else q + 1
  end.

(** The double nearest to [m * 10^k], for [m >= 0], as [(q, p)] of value
    [q * 2^p]: 53 bits to the nearest, ties to even, subnormal below
    [2^-1022]; nothing when the decimal is past the largest double
    (infinity). *)
Definition binary64 (m k : Z) : option (Z * Z) :=
  if Z.eqb m 0 then Some (0, 0)
  else
    let num := if Z.leb 0 k then m * 10 ^ k else m in
    let den := if Z.leb 0 k then 1 else 10 ^ (- k) in
    let e0 := Z.log2 num - Z.log2 den in
    let e :=
      let '(n, d) := shifted num den e0 in
      if Z.leb d n then e0 else e0 - 1 in
    let p := Z.max (e - 52) (-1074) in
    let '(n, d) := shifted num den p in
    let q := nearest_even n d in
    if Z.leb 0 p && Z.leb (2 ^ 1024) (q * 2 ^ p) then None else Some (q, p).

(** [float(lexeme) == 0.0].  A lexeme that is no number literal stands
    for a NaN. *)
Definition float_is_zero (lexeme : string) : bool :=
  match decimal_of lexeme with
  | Some (_, m, k) =>
      match binary64 m k with
      | Some (q, _) => Z.eqb q 0
      | None => false
      end
  | None => false
  end.

(** Truth value of an object in a boolean context. *)
Definition truthy (v : json) : bool :=
  match v with
  | JNull => false
  | JBool b => b
  | JInt z => negb (Z.eqb z 0)
  | JFloat l => negb (float_is_zero l)
  | JStr s => negb (String.eqb s "")
  | JArr l => match l with [] => false | _ => true end
  | JObj l => match l with [] => false | _ => true end
  end.

Definition truthy_str (o : option string) : bool :=
  match o with Some s => negb (String.eqb s "") | None => false end.

Definition truthy_dict (o : option dict) : bool :=
  match o with Some d => negb (bool_decide (d = ∅)) | None => false end.

(** A [timedelta] is its number of microseconds.  [timedelta(0)] is
    false, every other duration is true. *)
Definition truthy_timedelta (o : option Z) : bool :=
  match o with Some d => negb (Z.eqb d 0) | None => false end.

(** [timedelta(minutes=m)] *)
Definition timedelta_minutes (m : Z) : Z := m * 60000000.

(** The [datetime] of an instant of whole seconds, in microseconds. *)
Definition microseconds (instant : Z) : Z := instant * 1000000.

(** [timegm(d.utctimetuple())]: the whole seconds of a [datetime]. *)
Definition timegm (d : Z) : Z := d / 1000000.

(** [v == s] for a str [s]. *)
Definition eq_str (v : json) (s : string) : bool :=
  match v with JStr s' => String.eqb s' s | _ => false end.

(** An [Optional[str]] stored in a dict. *)
Definition of_opt_str (o : option string) : json :=
  match o with Some s => JStr s | None => JNull end.

Definition of_opt_list (o : option (list json)) : json :=
  match o with Some l => JArr l | None => JNull end.

Definition str_of_Z (z : Z) : string := NilZero.string_of_int (Z.to_int z).

(** [repr(v)] and [str(v)], as an f-string formats a value (string
    escapes are not rendered). *)
Fixpoint repr_json (v : json) : string :=
  match v with
  | JNull => "None"
  | JBool b => if b then "True" else "False"
  | JInt z => str_of_Z z
  | JFloat l => l
  | JStr s => "'" ++ s ++ "'"
  | JArr l =>
      "[" ++ (fix items (l : list json) : string :=
                match l with
                | [] => ""
                | [x] => repr_json x
                | x :: r => repr_json x ++ ", " ++ items r
                end) l ++ "]"
  | JObj l =>
      "{" ++ (fix items (l : list (string * json)) : string :=
                match l with
                | [] => ""
                | [(k, x)] => "'" ++ k ++ "': " ++ repr_json x
                | (k, x) :: r =>
                    "'" ++ k ++ "': " ++ repr_json x ++ ", " ++ items r
                end) l ++ "}"
  end.

Definition str_json (v : json) : string :=
  match v with JStr s => s | _ => repr_json v end.

(** *** str methods *)

(** [s.split("/")[-1]]: what follows the last separator. *)
Fixpoint split_last (sep : ascii) (cur s : string) : string :=
  match s with
  | EmptyString => cur
  | String c s' =>
      if Ascii.eqb c sep then split_last sep "" s'
      else split_last sep (cur ++ String c "") s'
  end.

Fixpoint replace_from (skip : nat) (old new s : string) : string :=
  match s with
  | EmptyString => ""
  | String c s' =>
      match skip with
      | S k => replace_from k old new s'
      | O =>
          if String.prefix old s
          then new ++ replace_from (String.length old - 1) old new s'
          else String c (replace_from 0 old new s')
      end
  end.

Fixpoint interleave (new s : string) : string :=
  match s with
  | EmptyString => new
  | String c s' => new ++ String c (interleave new s')
  end.

(** [s.replace(old, new)]: every non-overlapping occurrence, left to
    right; an empty [old] matches between all characters. *)
Definition replace (s old new : string) : string :=
  if String.eqb old "" then interleave new s else replace_from 0 old new s.

(** ** Exceptions *)

(** The classes of the exceptions that matter to the handlers.  All
    derive from [Exception], except those of [BaseOnly], which derive
    from [BaseException] only ([asyncio.CancelledError],
    [KeyboardInterrupt], [SystemExit], [GeneratorExit]): no
    [except Exception] clause catches them. *)
Inductive errclass :=
| ValueError | JSONDecodeError
| JWTError | ExpiredSignatureError | JWTClaimsError
| KeyError | AttributeError | TypeError | OverflowError | RecursionError
| BaseOnly (name : string)
| OtherError (name : string).

Definition CancelledError : errclass := BaseOnly "CancelledError".

Inductive exn :=
| HTTPException (status_code : Z) (detail : string)
    (headers : option (list (string * string)))
| Error (cls : errclass) (msg : string).

Definition HTTP_400_BAD_REQUEST := 400.
Definition HTTP_401_UNAUTHORIZED := 401.
Definition HTTP_403_FORBIDDEN := 403.
Definition HTTP_404_NOT_FOUND := 404.
Definition HTTP_500_INTERNAL_SERVER_ERROR := 500.

(** [isinstance(e, C)] for the classes named in [except] clauses. *)
Definition is_HTTPException (e : exn) : bool :=
  match e with HTTPException _ _ _ => true | _ => false end.

Definition is_Exception (e : exn) : bool :=
  match e with Error (BaseOnly _) _ => false | _ => true end.

Definition is_JSONDecodeError (e : exn) : bool :=
  match e with Error JSONDecodeError _ => true | _ => false end.

(** [json.JSONDecodeError] derives from [ValueError]. *)
Definition is_ValueError (e : exn) : bool :=
  match e with
  | Error ValueError _ | Error JSONDecodeError _ => true
  | _ => false
  end.

(** [ExpiredSignatureError] and [JWTClaimsError] derive from [JWTError]. *)
Definition is_JWTError (e : exn) : bool :=
  match e with
  | Error JWTError _ | Error ExpiredSignatureError _
  | Error JWTClaimsError _ => true
  | _ => false
  end.

(** [str(e)] *)
Definition str_exn (e : exn) : string :=
  match e with
  | HTTPException c d _ => str_of_Z c ++ ": " ++ d
  | Error _ m => m
  end.

Inductive outcome (A : Type) : Type :=
| Returned (a : A)
| Raised (e : exn).
Arguments Returned {A} a.
Arguments Raised {A} e.

(** *** int *)

(** [int(x)] for a float [x]: its double, truncated towards zero. *)
Definition int_of_float (lexeme : string) : outcome Z :=
  if String.eqb lexeme "inf" || String.eqb lexeme "-inf" then
    Raised (Error OverflowError "cannot convert float infinity to integer")
  else
    match decimal_of lexeme with
    | Some (negative, m, k) =>
        match binary64 m k with
        | Some (q, p) =>
            let t := if Z.leb 0 p then q * 2 ^ p else q / 2 ^ (- p) in
            Returned (if negative then - t else t)
        | None =>
            Raised (Error OverflowError
                      "cannot convert float infinity to integer")
        end
    | None => Raised (Error ValueError "cannot convert float NaN to integer")
    end.

Definition is_space (c : ascii) : bool :=
  let n := Z.of_N (N_of_ascii c) in
  (Z.leb 9 n && Z.leb n 13) || (Z.leb 28 n && Z.leb n 32).

Fixpoint lstrip (s : string) : string :=
  match s with
  | String c r => if is_space c then lstrip r else s
  | EmptyString => s
  end.

Fixpoint all_space (s : string) : bool :=
  match s with
  | String c r => is_space c && all_space r
  | EmptyString => true
  end.

(** The digits of an integer literal after its sign: digits, which
    single underscores may separate, then whitespace only.  [seen] says
    that the last character was a digit. *)
Fixpoint int_digits (acc : Z) (seen : bool) (s : string) : option Z :=
  match s with
  | EmptyString => if seen then Some acc else None
  | String c r =>
      match digit_of c with
      | Some d => int_digits (10 * acc + d) true r
      | None =>
          if Ascii.eqb c "_" then
            if seen then int_digits acc false r else None
          else if seen && all_space s then Some acc
          else None
      end
  end.

(** [int(s)] for a str [s], in base 10.  Of the whitespace and of the
    digits that [int] accepts, the ASCII ones are recognised; a literal
    that is refused for its length is refused with a [ValueError] as
    well. *)
Definition int_of_str (s : string) : outcome Z :=
  let s1 := lstrip s in
  let '(negative, s2) :=
    match s1 with
    | String "-"%char r => (true, r)
    | String "+"%char r => (false, r)
    | _ => (false, s1)
    end in
  match int_digits 0 false s2 with
  | Some z => Returned (if negative then - z else z)
  | None =>
      Raised (Error ValueError
                ("invalid literal for int() with base 10: '" ++ s ++ "'"))
  end.

(** [int(v)] *)
Definition int_of (v : json) : outcome Z :=
  let not_a_number (type : string) :=
    Raised (Error TypeError
              ("int() argument must be a string, a bytes-like object or a "
               ++ "real number, not '" ++ type ++ "'")) in
  match v with
  | JInt z => Returned z
  | JBool b => Returned (if b then 1 else 0)
  | JFloat l => int_of_float l
  | JStr s => int_of_str s
  | JNull => not_a_number "NoneType"
  | JArr _ => not_a_number "list"
  | JObj _ => not_a_number "dict"
  end.

(** ** Request and token objects *)

(** Starlette's [UploadFile]: [file] is the underlying stream, kept as
    its content. *)
Record UploadFile := {
  filename : string;
  content_type : string;
  file : bytes
}.

Record UserCreate := {
  uc_username : string;
  uc_email : string;
  uc_password : string
}.

Record LoginRequest := {
  lr_email : string;
  lr_password : string
}.

Record MediaUpdate := {
  mu_description : option string;
  mu_tags : option (list string)
}.

Record UserResponse := {
  ur_id : json;
  ur_username : json;
  ur_email : json;
  ur_createdAt : json
}.

(** A serialized token.  The compact serialization of the JWT library is
    kept symbolic: a signed token is determined by its claim set, the key
    and the algorithm it was signed with; any other string is [Opaque]. *)
Inductive token :=
| Signed (claims : dict) (key alg : string)
| Opaque (s : string).

Record Token := {
  tk_token : token;
  tk_user : UserResponse
}.

Record HTTPAuthorizationCredentials := {
  scheme : string;
  credentials : token
}.

(** [config.settings] *)
Record Settings := {
  jwt_secret_key : string;
  jwt_algorithm : string;
  jwt_access_token_expire_minutes : Z
}.

(** ** Calls that leave the source files *)

Inductive call :=
| cipher_provider_verify (raw_credential : string) (encrypted_digest : json)
| cipher_provider_hash (password : string)
| json_loads (s : string)
| jwt_encode (payload : dict) (key algorithm : string)
| jwt_decode (tok : token) (key : string) (algorithms : list string)
| cosmos_db_get_user_by_email (email : string)
| cosmos_db_create_user (doc : dict)
| cosmos_db_create_media (doc : dict)
| cosmos_db_get_media_by_id (media_id user_id : string)
| cosmos_db_update_media (media_id user_id : string) (changes : dict)
| cosmos_db_delete_media (media_id user_id : string)
| blob_storage_upload_file (data : bytes) (user_id file_name mime : string)
| blob_storage_delete_file (blob_name : json)
| validate_file_type (f : UploadFile)
| validate_file_size (f : UploadFile)
| generate_thumbnail (data : bytes)
| file_read (f : UploadFile)
| file_seek (f : UploadFile) (pos : Z).

(** The type of what a call returns. *)
Definition ret (c : call) : Type :=
  match c with
  | cipher_provider_verify _ _ => bool
  | cipher_provider_hash _ => string
  | json_loads _ => json
  | jwt_encode _ _ _ => token
  | jwt_decode _ _ _ => dict
  | cosmos_db_get_user_by_email _ => option dict
  | cosmos_db_create_user _ => dict
  | cosmos_db_create_media _ => dict
  | cosmos_db_get_media_by_id _ _ => option dict
  | cosmos_db_update_media _ _ _ => dict
  | cosmos_db_delete_media _ _ => unit
  | blob_storage_upload_file _ _ _ _ => (string * string)%type
  | blob_storage_delete_file _ => unit
  | validate_file_type _ => string
  | validate_file_size _ => Z
  | generate_thumbnail _ => option bytes
  | file_read _ => bytes
  | file_seek _ _ => unit
  end.

(** Reads of the process environment, which do not fail. *)
Inductive query :=
| utcnow
| uuid4.

Definition qret (q : query) : Type :=
  match q with
  | utcnow => Z
  | uuid4 => string
  end.

Inductive level := INFO | WARNING | ERROR.

(** ** The handler monad *)

(** A handler is a tree of calls.  [Raise e] raises an instance of
    [Exception], which the enclosing [try] catches; [Throw e] raises an
    exception that derives from [BaseException] only, which passes every
    [except Exception] clause and leaves the handler. *)
Inductive prog (A : Type) : Type :=
| Ret (a : A)
| Raise (e : exn)
| Call (c : call) (k : outcome (ret c) -> prog A)
| Ask (q : query) (k : qret q -> prog A)
| Log (l : level) (msg : string) (k : prog A)
| Throw (e : exn).
Arguments Ret {A} a.
Arguments Raise {A} e.
Arguments Call {A} c k.
Arguments Ask {A} q k.
Arguments Log {A} l msg k.
Arguments Throw {A} e.

Fixpoint bind {A B} (m : prog A) (f : A -> prog B) : prog B :=
  match m with
  | Ret a => f a
  | Raise e => Raise e
  | Call c k => Call c (fun o => bind (k o) f)
  | Ask q k => Ask q (fun x => bind (k x) f)
  | Log l msg k => Log l msg (bind k f)
  | Throw e => Throw e
  end.

(** [try: m  except Exception as e: h e].  A clause list is written as
    the chain of [isinstance] tests in [h], which re-raises when no clause
    matches; an exception raised by [h] itself is not caught again. *)
Fixpoint try_except {A} (m : prog A) (h : exn -> prog A) : prog A :=
  match m with
  | Ret a => Ret a
  | Raise e => h e
  | Call c k => Call c (fun o => try_except (k o) h)
  | Ask q k => Ask q (fun x => try_except (k x) h)
  | Log l msg k => Log l msg (try_except k h)
  | Throw e => Throw e
  end.

(** A synchronous call.  It is no suspension point: the cancellation of
    the request cannot surface in it, and what it raises is handled as
    an instance of [Exception]. *)
Definition call_ (c : call) : prog (ret c) :=
  Call c (fun o => match o with Returned x => Ret x | Raised e => Raise e end).

(** [await c]: a suspension point.  Besides the instances of
    [Exception] that the call raises, the cancellation of the request
    surfaces here, as an [asyncio.CancelledError] raised by the
    [await]: what the call raises of a class that derives from
    [BaseException] only is thrown. *)
Definition await_ (c : call) : prog (ret c) :=
  Call c (fun o =>
            match o with
            | Returned x => Ret x
            | Raised e => if is_Exception e then Raise e else Throw e
            end).

Definition ask (q : query) : prog (qret q) := Ask q Ret.

Definition log (l : level) (msg : string) : prog unit := Log l msg (Ret tt).

(** [d[k]] *)
Definition getitem (d : dict) (k : string) : prog json :=
  match d !! k with
  | Some v => Ret v
  | None => Raise (Error KeyError k)
  end.

(** The dict behind an [Optional[dict]] already tested to be true. *)
Definition the (o : option dict) : dict := default ∅ o.

(** [d.get(k)] *)
Definition dict_get (d : dict) (k : string) : json := default JNull (d !! k).

Definition is_None (v : json) : bool :=
  match v with JNull => true | _ => false end.

(** A value computed outside the monad, or the exception it raised. *)
Definition lift {A} (o : outcome A) : prog A :=
  match o with Returned a => Ret a | Raised e => Raise e end.

(** The receiver of a str method. *)
Definition as_str (v : json) : prog string :=
  match v with
  | JStr s => Ret s
  | _ => Raise (Error AttributeError "object has no such attribute")
  end.

Declare Scope prog_scope.
Delimit Scope prog_scope with prog.
Notation "x <- m ;; k" := (bind m (fun x => k))
  (at level 100, m at next level, right associativity) : prog_scope.
Notation "m ;; k" := (bind m (fun _ => k))
  (at level 100, right associativity) : prog_scope.
Open Scope prog_scope.

(** ** Running a handler *)

(** An environment answers every call from its own state. *)
Record Env := {
  St : Type;
  answer : ∀ c : call, St -> outcome (ret c) * St;
  reply : ∀ q : query, St -> qret q * St
}.

Inductive event :=
| EvCall (c : call)
| EvAsk (q : query)
| EvLog (l : level) (msg : string).

Fixpoint run (E : Env) {A} (p : prog A) (s : St E)
  : list event * St E * outcome A :=
  match p with
  | Ret a => ([], s, Returned a)
  | Raise e => ([], s, Raised e)
  | Call c k =>
      let '(o, s1) := answer E c s in
      let '(tr, s2, r) := run E (k o) s1 in
      (EvCall c :: tr, s2, r)
  | Ask q k =>
      let '(x, s1) := reply E q s in
      let '(tr, s2, r) := run E (k x) s1 in
      (EvAsk q :: tr, s2, r)
  | Log l msg k =>
      let '(tr, s2, r) := run E k s in
      (EvLog l msg :: tr, s2, r)
  | Throw e => ([], s, Raised e)
  end.

Definition trace_of {S A} (x : list event * S * outcome A) : list event :=
  x.1.1.
Definition state_of {S A} (x : list event * S * outcome A) : S := x.1.2.
Definition result_of {S A} (x : list event * S * outcome A) : outcome A :=
  x.2.

(** Calls that write to the blob store or to the document store. *)
Definition is_write (c : call) : bool :=
  match c with
  | cosmos_db_create_user _ | cosmos_db_create_media _
  | cosmos_db_update_media _ _ _ | cosmos_db_delete_media _ _
  | blob_storage_upload_file _ _ _ _ | blob_storage_delete_file _ => true
  | _ => false
  end.

Definition no_write (tr : list event) : bool :=
  forallb
    (fun ev => match ev with EvCall c => negb (is_write c) | _ => true end)
    tr.

Definition called (c : call) (tr : list event) : Prop := In (EvCall c) tr.

(** ** auth.py *)

Module auth.
Section auth.
Variable settings : Settings.

Definition validate_credential (raw_credential : string)
    (encrypted_digest : json) : prog bool :=
  call_ (cipher_provider_verify raw_credential encrypted_digest).

Definition compute_digest (password : string) : prog string :=
  call_ (cipher_provider_hash password).

(** [expiration_offset] is a [timedelta], and [expire] a [datetime], in
    microseconds.  The claim [exp] is the whole seconds of [expire]:
    [jwt.encode] turns a [datetime] claim into them. *)
Definition generate_jwt_token (data : dict)
    (expiration_offset : option Z) : prog token :=
  let jwt_payload := data in
  expire <-
    (if truthy_timedelta expiration_offset then
       now <- ask utcnow ;;
       Ret (microseconds now + default 0 expiration_offset)
     else
       now <- ask utcnow ;;
       Ret (microseconds now
            + timedelta_minutes (jwt_access_token_expire_minutes settings))) ;;
  let jwt_payload := <["exp" := JInt (timegm expire)]> jwt_payload in
  signed_token <-
    call_ (jwt_encode jwt_payload (jwt_secret_key settings)
             (jwt_algorithm settings)) ;;
  Ret signed_token.

Definition credentials_exception : exn :=
  HTTPException HTTP_401_UNAUTHORIZED "Could not validate credentials"
    (Some [("WWW-Authenticate", "Bearer")]).

Definition parse_jwt_payload (tok : token) : prog dict :=
  try_except
    (payload <-
       call_ (jwt_decode tok (jwt_secret_key settings)
                [jwt_algorithm settings]) ;;
     Ret payload)
    (fun e =>
       if is_JWTError e then Raise credentials_exception else Raise e).

Definition extract_authenticated_id
    (cred : HTTPAuthorizationCredentials) : prog json :=
  let tok := credentials cred in
  payload <- parse_jwt_payload tok ;;
  let user_id := dict_get payload "sub" in
  if is_None user_id then Raise credentials_exception
  else Ret user_id.

Definition get_current_user_id
    (cred : HTTPAuthorizationCredentials) : prog json :=
  extract_authenticated_id cred.
End auth.
End auth.

(** ** routes_auth.py *)

Module routes_auth.
Section routes_auth.
Variable settings : Settings.

Definition register (account_params : UserCreate) : prog Token :=
  try_except
    (log INFO ("Registration attempt for email: " ++ uc_email account_params) ;;
     prior_account <-
       call_ (cosmos_db_get_user_by_email (uc_email account_params)) ;;
     if truthy_dict prior_account then
       log WARNING ("Registration failed: Email already exists "
                    ++ uc_email account_params) ;;
       Raise (HTTPException HTTP_400_BAD_REQUEST
                "User with this email already exists" None)
     else
       account_id <- ask uuid4 ;;
       hashed <- auth.compute_digest (uc_password account_params) ;;
       created_at <- ask utcnow ;;
       let account_record : dict :=
         <["id" := JStr account_id]>
         (<["username" := JStr (uc_username account_params)]>
         (<["email" := JStr (uc_email account_params)]>
         (<["hashed_password" := JStr hashed]>
         (<["created_at" := JInt created_at]> ∅)))) in
       persisted_account <- call_ (cosmos_db_create_user account_record) ;;
       log INFO ("User created successfully: " ++ uc_email account_params) ;;
       signed_token <-
         auth.generate_jwt_token settings
           (<["sub" := JStr account_id]>
            (<["email" := JStr (uc_email account_params)]> ∅)) None ;;
       id <- getitem persisted_account "id" ;;
       username <- getitem persisted_account "username" ;;
       email <- getitem persisted_account "email" ;;
       createdAt <- getitem persisted_account "created_at" ;;
       let account_response :=
         {| ur_id := id; ur_username := username; ur_email := email;
            ur_createdAt := createdAt |} in
       Ret {| tk_token := signed_token; tk_user := account_response |})
    (fun e =>
       if is_HTTPException e then Raise e
       else if is_ValueError e then
         log ERROR ("Registration validation error: " ++ str_exn e) ;;
         Raise (HTTPException HTTP_400_BAD_REQUEST (str_exn e) None)
       else
         log ERROR ("Registration error: " ++ str_exn e) ;;
         Raise (HTTPException HTTP_500_INTERNAL_SERVER_ERROR
                  ("Failed to register user: " ++ str_exn e) None)).

Definition login (credential_payload : LoginRequest) : prog Token :=
  try_except
    (log INFO ("Login attempt for email: " ++ lr_email credential_payload) ;;
     account_entity <-
       call_ (cosmos_db_get_user_by_email (lr_email credential_payload)) ;;
     if negb (truthy_dict account_entity) then
       log WARNING ("Login failed: User not found for email "
                    ++ lr_email credential_payload) ;;
       Raise (HTTPException HTTP_401_UNAUTHORIZED
                "Invalid email or password" None)
     else
       let account_entity := the account_entity in
       hashed <- getitem account_entity "hashed_password" ;;
       verified <- auth.validate_credential
                     (lr_password credential_payload) hashed ;;
       if negb verified then
         log WARNING ("Login failed: Invalid password for email "
                      ++ lr_email credential_payload) ;;
         Raise (HTTPException HTTP_401_UNAUTHORIZED
                  "Invalid email or password" None)
       else
         sub <- getitem account_entity "id" ;;
         email <- getitem account_entity "email" ;;
         signed_token <-
           auth.generate_jwt_token settings
             (<["sub" := sub]> (<["email" := email]> ∅)) None ;;
         id <- getitem account_entity "id" ;;
         username <- getitem account_entity "username" ;;
         email <- getitem account_entity "email" ;;
         createdAt <- getitem account_entity "created_at" ;;
         let account_response :=
           {| ur_id := id; ur_username := username; ur_email := email;
              ur_createdAt := createdAt |} in
         email <- getitem account_entity "email" ;;
         log INFO ("Login successful for user: " ++ str_json email) ;;
         Ret {| tk_token := signed_token; tk_user := account_response |})
    (fun e =>
       if is_HTTPException e then Raise e
       else
         log ERROR ("Login error: " ++ str_exn e) ;;
         Raise (HTTPException HTTP_500_INTERNAL_SERVER_ERROR
                  ("Failed to login: " ++ str_exn e) None)).
End routes_auth.
End routes_auth.

(** ** routes_media.py *)

Module routes_media.

(** Modelled from the spec: the response model [MediaResponse] of the
    absent [models] module.  The spec has the record returned unchanged
    to the caller, so the response is the document it is built from. *)
Definition MediaResponse (asset : dict) : prog dict := Ret asset.

Definition is_list (v : json) : bool :=
  match v with JArr _ => true | _ => false end.

(** The dict literal of [upload_media]. *)
Definition asset_document (asset_id user_id storage_identifier : string)
    (f : UploadFile) (asset_category : string) (content_size : Z)
    (storage_location : string) (preview_location description : option string)
    (label_collection : json) (now : Z) : dict :=
  <["id" := JStr asset_id]>
  (<["userId" := JStr user_id]>
  (<["fileName" := JStr storage_identifier]>
  (<["originalFileName" := JStr (filename f)]>
  (<["mediaType" := JStr asset_category]>
  (<["fileSize" := JInt content_size]>
  (<["mimeType" := JStr (content_type f)]>
  (<["blobUrl" := JStr storage_location]>
  (<["thumbnailUrl" := of_opt_str preview_location]>
  (<["description" := of_opt_str description]>
  (<["tags" := label_collection]>
  (<["uploadedAt" := JInt now]>
  (<["updatedAt" := JInt now]> ∅)))))))))))).

Definition upload_media (f : UploadFile) (description tags : option string)
    (user_id : string) : prog dict :=
  try_except
    (asset_category <- call_ (validate_file_type f) ;;
     content_size <- call_ (validate_file_size f) ;;
     label_collection <-
       (if truthy_str tags then
          try_except
            (label_collection <- call_ (json_loads (default "" tags)) ;;
             if negb (is_list label_collection) then
               Raise (Error ValueError "Tags must be an array")
             else Ret label_collection)
            (fun e =>
               if is_JSONDecodeError e then
                 Raise (HTTPException HTTP_400_BAD_REQUEST
                          "Invalid tags format. Must be a JSON array." None)
               else Raise e)
        else Ret JNull) ;;
     binary_payload <- await_ (file_read f) ;;
     await_ (file_seek f 0) ;;
     stored <-
       call_ (blob_storage_upload_file (file f) user_id (filename f)
                (content_type f)) ;;
     let storage_identifier := stored.1 in
     let storage_location := stored.2 in
     preview_location <-
       (if String.eqb asset_category "image" then
          preview_data <- call_ (generate_thumbnail binary_payload) ;;
          if truthy_str preview_data then
            try_except
              (let preview_stream := default "" preview_data in
               stored_preview <-
                 call_ (blob_storage_upload_file preview_stream user_id
                          ("thumb_" ++ filename f) "image/jpeg") ;;
               Ret (Some stored_preview.2))
              (fun e =>
                 log WARNING ("Failed to upload thumbnail: " ++ str_exn e) ;;
                 Ret None)
          else Ret None
        else Ret None) ;;
     asset_id <- ask uuid4 ;;
     now <- ask utcnow ;;
     let asset_document :=
       asset_document asset_id user_id storage_identifier f asset_category
         content_size storage_location preview_location description
         label_collection now in
     persisted_asset <- call_ (cosmos_db_create_media asset_document) ;;
     MediaResponse persisted_asset)
    (fun e =>
       if is_HTTPException e then Raise e
       else
         log ERROR ("Upload error: " ++ str_exn e) ;;
         Raise (HTTPException HTTP_500_INTERNAL_SERVER_ERROR
                  ("Failed to upload media: " ++ str_exn e) None)).

Definition get_media_by_id (media_id user_id : string) : prog dict :=
  try_except
    (asset_record <- call_ (cosmos_db_get_media_by_id media_id user_id) ;;
     if negb (truthy_dict asset_record) then
       Raise (HTTPException HTTP_404_NOT_FOUND "Media not found" None)
     else
       let asset_record := the asset_record in
       owner <- getitem asset_record "userId" ;;
       if negb (eq_str owner user_id) then
         Raise (HTTPException HTTP_403_FORBIDDEN
                  "You don't have permission to access this media" None)
       else MediaResponse asset_record)
    (fun e =>
       if is_HTTPException e then Raise e
       else
         log ERROR ("Get media error: " ++ str_exn e) ;;
         Raise (HTTPException HTTP_500_INTERNAL_SERVER_ERROR
                  "Failed to retrieve media" None)).

Definition update_media_metadata (media_id : string)
    (modification_payload : MediaUpdate) (user_id : string) : prog dict :=
  try_except
    (asset_record <- call_ (cosmos_db_get_media_by_id media_id user_id) ;;
     if negb (truthy_dict asset_record) then
       Raise (HTTPException HTTP_404_NOT_FOUND "Media not found" None)
     else
       let asset_record := the asset_record in
       owner <- getitem asset_record "userId" ;;
       if negb (eq_str owner user_id) then
         Raise (HTTPException HTTP_403_FORBIDDEN
                  "You don't have permission to update this media" None)
       else
         now <- ask utcnow ;;
         let property_changes : dict := <["updatedAt" := JInt now]> ∅ in
         let property_changes :=
           match mu_description modification_payload with
           | Some d => <["description" := JStr d]> property_changes
           | None => property_changes
           end in
         let property_changes :=
           match mu_tags modification_payload with
           | Some t => <["tags" := JArr (JStr <$> t)]> property_changes
           | None => property_changes
           end in
         revised_asset <-
           call_ (cosmos_db_update_media media_id user_id property_changes) ;;
         MediaResponse revised_asset)
    (fun e =>
       if is_HTTPException e then Raise e
       else if is_ValueError e then
         Raise (HTTPException HTTP_404_NOT_FOUND (str_exn e) None)
       else
         log ERROR ("Update media error: " ++ str_exn e) ;;
         Raise (HTTPException HTTP_500_INTERNAL_SERVER_ERROR
                  "Failed to update media" None)).

Definition delete_media (media_id user_id : string) : prog unit :=
  try_except
    (asset_record <- call_ (cosmos_db_get_media_by_id media_id user_id) ;;
     if negb (truthy_dict asset_record) then
       Raise (HTTPException HTTP_404_NOT_FOUND "Media not found" None)
     else
       let asset_record := the asset_record in
       owner <- getitem asset_record "userId" ;;
       if negb (eq_str owner user_id) then
         Raise (HTTPException HTTP_403_FORBIDDEN
                  "You don't have permission to delete this media" None)
       else
         file_name <- getitem asset_record "fileName" ;;
         call_ (blob_storage_delete_file file_name) ;;
         (if truthy (dict_get asset_record "thumbnailUrl") then
            try_except
              (file_name <- getitem asset_record "fileName" ;;
               file_name <- as_str file_name ;;
               original <- getitem asset_record "originalFileName" ;;
               original <- as_str original ;;
               let old := split_last "/" "" original in
               original <- getitem asset_record "originalFileName" ;;
               original <- as_str original ;;
               let new := "thumb_" ++ split_last "/" "" original in
               let preview_identifier := replace file_name old new in
               call_ (blob_storage_delete_file (JStr preview_identifier)))
              (fun e =>
                 log WARNING ("Failed to delete thumbnail: " ++ str_exn e))
          else Ret tt) ;;
         call_ (cosmos_db_delete_media media_id user_id) ;;
         Ret tt)
    (fun e =>
       if is_HTTPException e then Raise e
       else
         log ERROR ("Delete media error: " ++ str_exn e) ;;
         Raise (HTTPException HTTP_500_INTERNAL_SERVER_ERROR
                  "Failed to delete media" None)).

End routes_media.

(** ** The JSON decoder

  A reference decoder for [json.loads] (whitespace, literals, numbers,
  strings with escapes, arrays, objects), with the two limits of the
  interpreter that make it fail on input of valid syntax.  A [\u] escape
  is encoded as UTF-8 on its own: a surrogate pair is not combined. *)

Module json_decoder.

Definition is_ws (c : ascii) : bool :=
  match c with
  | " "%char | "009"%char | "010"%char | "013"%char => true
  | _ => false
  end.

Fixpoint skip_ws (s : string) : string :=
  match s with
  | String c r => if is_ws c then skip_ws r else s
  | EmptyString => s
  end.

Definition is_digit (c : ascii) : bool :=
  let n := nat_of_ascii c in (48 <=? n)%nat && (n <=? 57)%nat.

Definition digit_val (c : ascii) : Z := Z.of_nat (nat_of_ascii c) - 48.

(** The longest run of digits at the head of [s], and what follows. *)
Fixpoint digits (s : string) : string * string :=
  match s with
  | String c r =>
      if is_digit c then let '(d, r') := digits r in (String c d, r')
      else ("", s)
  | EmptyString => ("", s)
  end.

Fixpoint Z_of_digits (acc : Z) (d : string) : Z :=
  match d with
  | String c r => Z_of_digits (10 * acc + digit_val c) r
  | EmptyString => acc
  end.

(** [s] without the prefix [p], when it starts with [p]. *)
Fixpoint after (p s : string) : option string :=
  match p, s with
  | EmptyString, _ => Some s
  | String a p', String b s' => if Ascii.eqb a b then after p' s' else None
  | String _ _, EmptyString => None
  end.

(** The limits of the interpreter that bear on decoding: how many
    nested arrays and objects the decoder can still enter before the
    recursion limit is reached (what is left of
    [sys.getrecursionlimit()] at the call), and the longest integer
    literal that is converted ([sys.get_int_max_str_digits()], 0 for no
    limit). *)
Record limits := {
  max_nesting : nat;
  int_max_str_digits : nat
}.

(** What scanning a prefix of the input comes to: a value and the rest
    of the input, a syntax error ([JSONDecodeError]), or another
    exception. *)
Inductive scanned (A : Type) : Type :=
| Scanned (a : A) (rest : string)
| Malformed
| Failed (e : exn).
Arguments Scanned {A} a rest.
Arguments Malformed {A}.
Arguments Failed {A} e.

Definition too_many_digits (limit digits : nat) : exn :=
  Error ValueError
    ("Exceeds the limit (" ++ str_of_Z (Z.of_nat limit)
     ++ " digits) for integer string conversion: value has "
     ++ str_of_Z (Z.of_nat digits)
     ++ " digits; use sys.set_int_max_str_digits() to increase the limit").

Definition too_deep (what : string) : exn :=
  Error RecursionError
    ("maximum recursion depth exceeded while decoding a JSON " ++ what
     ++ " from a unicode string").

(** A number literal: an optional minus sign, an integer part without
  leading zero, an optional fraction, an optional exponent.  The fraction
  and the exponent are taken only when complete.  An integer literal
  with more digits than the limit is not converted: [int] raises
  [ValueError]. *)
Definition number (lim : limits) (s : string) : scanned json :=
  let '(sign, s1) :=
    match s with String "-"%char r => ("-", r) | _ => ("", s) end in
  let int_part :=
    match s1 with
    | String "0"%char r => Some ("0", r)
    | _ => match digits s1 with
           | (EmptyString, _) => None
           | (d, r) => Some (d, r)
           end
    end in
  match int_part with
  | None => Malformed
  | Some (d, s2) =>
      let '(frac, s3) :=
        match s2 with
        | String "."%char r =>
            match digits r with
            | (EmptyString, _) => ("", s2)
            | (f, r') => ("." ++ f, r')
            end
        | _ => ("", s2)
        end in
      let '(exp, s4) :=
        match s3 with
        | String e r =>
            if Ascii.eqb e "e" || Ascii.eqb e "E" then
              let '(sg, r1) :=
                match r with
                | String g r' =>
                    if Ascii.eqb g "+" || Ascii.eqb g "-"
                    then (String g "", r') else ("", r)
                | EmptyString => ("", r)
                end in
              match digits r1 with
              | (EmptyString, _) => ("", s3)
              | (x, r') => (String e (sg ++ x), r')
              end
            else ("", s3)
        | EmptyString => ("", s3)
        end in
      if String.eqb frac "" && String.eqb exp "" then
        let limit := int_max_str_digits lim in
        if (0 <? limit)%nat && (limit <? String.length d)%nat then
          Failed (too_many_digits limit (String.length d))
        else
          let n := Z_of_digits 0 d in
          Scanned (JInt (if String.eqb sign "" then n else - n)) s4
      else Scanned (JFloat (sign ++ d ++ frac ++ exp)) s4
  end.

Definition hex_val (c : ascii) : option N :=
  let n := N_of_ascii c in
  if (48 <=? n)%N && (n <=? 57)%N then Some (n - 48)%N
  else if (65 <=? n)%N && (n <=? 70)%N then Some (n - 55)%N
  else if (97 <=? n)%N && (n <=? 102)%N then Some (n - 87)%N
  else None.

Definition utf8 (n : N) : string :=
  let b (x : N) := String (ascii_of_N x) "" in
  if (n <? 128)%N then b n
  else if (n <? 2048)%N then
    b (192 + n / 64)%N ++ b (128 + n mod 64)%N
  else
    b (224 + n / 4096)%N ++ b (128 + (n / 64) mod 64)%N
      ++ b (128 + n mod 64)%N.

(** The characters of a string literal, after its opening quote. *)
Fixpoint chars (s : string) : option (string * string) :=
  match s with
  | EmptyString => None
  | String "034"%char r => Some ("", r)
  | String "\"%char (String e r) =>
      let cons (c : ascii) (r : string) :=
        match chars r with
        | Some (t, r') => Some (String c t, r')
        | None => None
        end in
      match e with
      | "034"%char => cons "034"%char r
      | "\"%char => cons "\"%char r
      | "/"%char => cons "/"%char r
      | "b"%char => cons "008"%char r
      | "f"%char => cons "012"%char r
      | "n"%char => cons "010"%char r
      | "r"%char => cons "013"%char r
      | "t"%char => cons "009"%char r
      | "u"%char =>
          match r with
          | String h1 (String h2 (String h3 (String h4 r'))) =>
              match hex_val h1, hex_val h2, hex_val h3, hex_val h4 with
              | Some a, Some b, Some c, Some d =>
                  match chars r' with
                  | Some (t, r'') =>
                      Some (utf8 (4096 * a + 256 * b + 16 * c + d)%N ++ t, r'')
                  | None => None
                  end
              | _, _, _, _ => None
              end
          | _ => None
          end
      | _ => None
      end
  | String c r =>
      if (nat_of_ascii c <? 32)%nat then None
      else match chars r with
           | Some (t, r') => Some (String c t, r')
           | None => None
           end
  end.

(** A value.  [room] is the number of arrays and objects that can
    still be entered: the decoder enters each one through a recursive
    call that the interpreter counts against its recursion limit. *)
Fixpoint value (fuel room : nat) (lim : limits) (s : string)
  : scanned json :=
  match fuel with
  | O => Malformed
  | S n =>
      match s with
      | String "034"%char r =>
          match chars r with
          | Some (t, r') => Scanned (JStr t) r'
          | None => Malformed
          end
      | String "["%char r =>
          match room with
          | O => Failed (too_deep "array")
          | S room' =>
              match skip_ws r with
              | String "]"%char r' => Scanned (JArr []) r'
              | r' => match items n room' lim r' with
                      | Scanned l r'' => Scanned (JArr l) r''
                      | Malformed => Malformed
                      | Failed e => Failed e
                      end
              end
          end
      | String "{"%char r =>
          match room with
          | O => Failed (too_deep "object")
          | S room' =>
              match skip_ws r with
              | String "}"%char r' => Scanned (JObj []) r'
              | r' => match members n room' lim r' with
                      | Scanned l r'' => Scanned (JObj l) r''
                      | Malformed => Malformed
                      | Failed e => Failed e
                      end
              end
          end
      | _ =>
          match after "null" s, after "true" s, after "false" s with
          | Some r, _, _ => Scanned JNull r
          | _, Some r, _ => Scanned (JBool true) r
          | _, _, Some r => Scanned (JBool false) r
          | _, _, _ =>
              match after "NaN" s, after "Infinity" s, after "-Infinity" s with
              | Some r, _, _ => Scanned (JFloat "nan") r
              | _, Some r, _ => Scanned (JFloat "inf") r
              | _, _, Some r => Scanned (JFloat "-inf") r
              | _, _, _ => number lim s
              end
          end
      end
  end
(** The elements of an array, from its first element on. *)
with items (fuel room : nat) (lim : limits) (s : string)
  : scanned (list json) :=
  match fuel with
  | O => Malformed
  | S n =>
      match value n room lim s with
      | Scanned v r =>
          match skip_ws r with
          | String "]"%char r' => Scanned [v] r'
          | String ","%char r' =>
              match items n room lim (skip_ws r') with
              | Scanned l r'' => Scanned (v :: l) r''
              | Malformed => Malformed
              | Failed e => Failed e
              end
          | _ => Malformed
          end
      | Malformed => Malformed
      | Failed e => Failed e
      end
  end
(** The members of an object, from its first key on. *)
with members (fuel room : nat) (lim : limits) (s : string)
  : scanned (list (string * json)) :=
  match fuel with
  | O => Malformed
  | S n =>
      match s with
      | String "034"%char r =>
          match chars r with
          | Some (k, r1) =>
              match skip_ws r1 with
              | String ":"%char r2 =>
                  match value n room lim (skip_ws r2) with
                  | Scanned v r3 =>
                      match skip_ws r3 with
                      | String "}"%char r' => Scanned [(k, v)] r'
                      | String ","%char r' =>
                          match members n room lim (skip_ws r') with
                          | Scanned l r'' => Scanned ((k, v) :: l) r''
                          | Malformed => Malformed
                          | Failed e => Failed e
                          end
                      | _ => Malformed
                      end
                  | Malformed => Malformed
                  | Failed e => Failed e
                  end
              | _ => Malformed
              end
          | None => Malformed
          end
      | _ => Malformed
      end
  end.

(** [json.loads(s)]: a syntax error is a [JSONDecodeError]; nesting
    beyond the recursion limit is a [RecursionError] and an integer
    literal beyond the digit limit a [ValueError], neither of which is a
    [JSONDecodeError]. *)
Definition loads (lim : limits) (s : string) : outcome json :=
  match value (2 * String.length s + 2) (max_nesting lim) lim (skip_ws s) with
  | Scanned v r =>
      match skip_ws r with
      | EmptyString => Returned v
      | _ => Raised (Error JSONDecodeError "Extra data")
      end
  | Malformed => Raised (Error JSONDecodeError "Expecting value")
  | Failed e => Raised e
  end.

End json_decoder.

(** ** A reference environment

    The modules [database], [storage], [utils] and [config] are not part
    of the sources; the reference environment gives them the behaviour the
    specification states for the collaborators, over an in-memory world.
    What the specification leaves open (which digest a password gets,
    which key a blob gets, whether a thumbnail can be derived, which store
    call fails) is an oracle of the world, so a statement over all worlds
    covers every choice. *)

Module world.

Record Oracles := {
  max_file_size : Z;
  image_types : list string;
  video_types : list string;
  hash_of : string -> string;
  verify_of : string -> json -> bool;
  thumbnail_of : bytes -> option bytes;
  uuid_of : nat -> string;
  blob_key : string -> string -> nat -> string;
  blob_url : string -> string;
  decoder_limits : json_decoder.limits;
  (** a call that fails raises the exception given here *)
  faults : call -> option exn
}.

Record World := {
  oracles : Oracles;
  users : list dict;
  media : list dict;
  blobs : list (string * bytes);
  clock : Z;
  counter : nat
}.

Definition with_users (w : World) (us : list dict) : World :=
  {| oracles := oracles w; users := us; media := media w; blobs := blobs w;
     clock := clock w; counter := counter w |}.

Definition with_media (w : World) (ms : list dict) : World :=
  {| oracles := oracles w; users := users w; media := ms; blobs := blobs w;
     clock := clock w; counter := counter w |}.

Definition with_blobs (w : World) (bs : list (string * bytes)) : World :=
  {| oracles := oracles w; users := users w; media := media w; blobs := bs;
     clock := clock w; counter := counter w |}.

(** The world after one more unique name has been drawn. *)
Definition fresh (w : World) : World :=
  {| oracles := oracles w; users := users w; media := media w;
     blobs := blobs w; clock := clock w; counter := S (counter w) |}.

(** The document [d] has the string [s] under the key [k]. *)
Definition has (k s : string) (d : dict) : bool := eq_str (dict_get d k) s.

(** Modelled from the spec: AccountStore of the absent [database] module,
    [findByEmail(email) -> Account|absent]. *)
Definition get_user_by_email (email : string) (w : World)
  : outcome (option dict) * World :=
  (Returned (List.find (has "email" email) (users w)), w).

(** Modelled from the spec: AccountStore of the absent [database] module,
    [create(Account) -> Account], which fails if the email is already
    present. *)
Definition create_user (doc : dict) (w : World) : outcome dict * World :=
  if existsb (fun u => has "email" (str_json (dict_get doc "email")) u)
       (users w)
  then (Raised (Error ValueError "User with this email already exists"), w)
  else (Returned doc, with_users w (users w ++ [doc])).

(** Modelled from the spec: AssetStore of the absent [database] module,
    [create(MediaAsset) -> MediaAsset]. *)
Definition create_media (doc : dict) (w : World) : outcome dict * World :=
  (Returned doc, with_media w (media w ++ [doc])).

(** Modelled from the spec: AssetStore of the absent [database] module,
    [findById(assetId) -> MediaAsset|absent]: the lookup is by asset id
    alone. *)
Definition find_media (media_id : string) (w : World) : option dict :=
  List.find (has "id" media_id) (media w).

Definition owned (media_id user_id : string) (d : dict) : bool :=
  has "id" media_id d && has "userId" user_id d.

(** Modelled from the spec: AssetStore of the absent [database] module,
    [update(assetId, ownerAccountId, fieldChanges) -> MediaAsset]: the
    changed fields replace those of the stored record, the others are
    kept. *)
Definition update_media (media_id user_id : string) (changes : dict)
    (w : World) : outcome dict * World :=
  match List.find (owned media_id user_id) (media w) with
  | Some d =>
      let d' : dict := changes ∪ d in
      (Returned d',
       with_media w
         ((fun x : dict => if owned media_id user_id x then changes ∪ x else x)
            <$> media w))
  | None => (Raised (Error ValueError "Media not found"), w)
  end.

(** Modelled from the spec: AssetStore of the absent [database] module,
    [delete(assetId, ownerAccountId) -> ()]. *)
Definition delete_media (media_id user_id : string) (w : World)
  : outcome unit * World :=
  (Returned tt,
   with_media w
     (List.filter (fun x => negb (owned media_id user_id x)) (media w))).

(** Modelled from the spec: BlobStore of the absent [storage] module,
    [put(bytes, ownerAccountId, filename, contentType) ->
    (storageKey, publicUrl)], under a key scoped to the owner and made
    unique. *)
Definition upload_file (data : bytes) (user_id file_name mime : string)
    (w : World) : outcome (string * string) * World :=
  let key := blob_key (oracles w) user_id file_name (counter w) in
  (Returned (key, blob_url (oracles w) key),
   fresh (with_blobs w (blobs w ++ [(key, data)]))).

(** Modelled from the spec: BlobStore of the absent [storage] module,
    [delete(storageKey) -> ()], idempotent. *)
Definition delete_file (blob_name : json) (w : World)
  : outcome unit * World :=
  (Returned tt,
   with_blobs w
     (List.filter (fun b => negb (eq_str blob_name b.1)) (blobs w))).

(** Modelled from the spec: ValidationError::UnsupportedType and
    ValidationError::TooLarge of the absent [utils] module, as bad-request
    failures; the second reports the actual size.  The wording of the
    details is the model's. *)
Definition unsupported_type (mime : string) : exn :=
  HTTPException HTTP_400_BAD_REQUEST ("Unsupported file type: " ++ mime) None.

Definition too_large (size : Z) : exn :=
  HTTPException HTTP_400_BAD_REQUEST
    ("File too large: " ++ str_of_Z size ++ " bytes") None.

Definition size_of (f : UploadFile) : Z := Z.of_nat (String.length (file f)).

(** Modelled from the spec: step 1 of the ingest pipeline, in the absent
    [utils] module: classify the declared content type into image or
    video, or fail with ValidationError::UnsupportedType. *)
Definition classify (f : UploadFile) (w : World) : outcome string :=
  if bool_decide (content_type f ∈ image_types (oracles w)) then
    Returned "image"
  else if bool_decide (content_type f ∈ video_types (oracles w)) then
    Returned "video"
  else Raised (unsupported_type (content_type f)).

(** Modelled from the spec: step 2 of the ingest pipeline, in the absent
    [utils] module: reject if the byte length exceeds a configured
    maximum, failing with ValidationError::TooLarge; report the actual
    size. *)
Definition check_size (f : UploadFile) (w : World) : outcome Z :=
  if Z.ltb (max_file_size (oracles w)) (size_of f) then
    Raised (too_large (size_of f))
  else Returned (size_of f).

(** Modelled from the spec: step 5 of the ingest pipeline, in the absent
    [utils] module: produce a smaller preview of the original bytes.
    The spec does not say how the helper reports a failure: here it
    either yields nothing, which [upload_media] tests, or raises, as the
    world lets every call do. *)
Definition derive_thumbnail (data : bytes) (w : World)
  : outcome (option bytes) :=
  Returned (thumbnail_of (oracles w) data).

(** The JWT library, [jose.jwt.decode] as [parse_jwt_payload] calls it:
    with the default options, without leeway, and with no audience,
    issuer, subject or access token to compare the claims with.  The
    signature is checked against the key and the accepted algorithms,
    then the registered claims in the order of the library.  Each check
    yields the exception it raises, if it raises one. *)
Definition claims_error (msg : string) : exn := Error JWTClaimsError msg.

(** [int(claims[k])] for a time claim: a [ValueError] becomes the claims
    error [msg], another exception is raised as it is. *)
Definition time_claim (claims : dict) (k msg : string)
  : outcome (option Z) :=
  match claims !! k with
  | None => Returned None
  | Some v =>
      match int_of v with
      | Returned z => Returned (Some z)
      | Raised e => Raised (if is_ValueError e then claims_error msg else e)
      end
  end.

Definition validate_iat (claims : dict) : option exn :=
  match time_claim claims "iat"
          "Issued At claim (iat) must be an integer." with
  | Raised e => Some e
  | Returned _ => None
  end.

Definition validate_nbf (claims : dict) (now : Z) : option exn :=
  match time_claim claims "nbf"
          "Not Before claim (nbf) must be an integer." with
  | Raised e => Some e
  | Returned (Some nbf) =>
      if Z.ltb now nbf
      then Some (claims_error "The token is not yet valid (nbf)")
      else None
  | Returned None => None
  end.

(** A token is expired once its [exp] is before now. *)
Definition validate_exp (claims : dict) (now : Z) : option exn :=
  match time_claim claims "exp"
          "Expiration Time claim (exp) must be an integer." with
  | Raised e => Some e
  | Returned (Some exp) =>
      if Z.ltb exp now
      then Some (Error ExpiredSignatureError "Signature has expired.")
      else None
  | Returned None => None
  end.

Definition is_str (v : json) : bool :=
  match v with JStr _ => true | _ => false end.

(** No audience is passed to the library: an [aud] claim, whatever it
    holds, does not contain it. *)
Definition validate_aud (claims : dict) : option exn :=
  match claims !! "aud" with
  | None => None
  | Some (JStr _) => Some (claims_error "Invalid audience")
  | Some (JArr l) =>
      if forallb is_str l then Some (claims_error "Invalid audience")
      else Some (claims_error "Invalid claim format in token")
  | Some _ => Some (claims_error "Invalid claim format in token")
  end.

Definition validate_sub (claims : dict) : option exn :=
  match claims !! "sub" with
  | None | Some (JStr _) => None
  | Some _ => Some (claims_error "Subject must be a string.")
  end.

Definition validate_jti (claims : dict) : option exn :=
  match claims !! "jti" with
  | None | Some (JStr _) => None
  | Some _ => Some (claims_error "JWT ID must be a string.")
  end.

(** No access token is passed to the library. *)
Definition validate_at_hash (claims : dict) : option exn :=
  match claims !! "at_hash" with
  | None => None
  | Some _ =>
      Some (claims_error
              "No access_token provided to compare against at_hash claim.")
  end.

Definition first_failure (checks : list (option exn)) : option exn :=
  fold_right (fun c rest => match c with Some e => Some e | None => rest end)
    None checks.

Definition validate_claims (claims : dict) (now : Z) : outcome dict :=
  match first_failure
          [validate_iat claims; validate_nbf claims now;
           validate_exp claims now; validate_aud claims;
           validate_sub claims; validate_jti claims;
           validate_at_hash claims] with
  | Some e => Raised e
  | None => Returned claims
  end.

Definition decode (tok : token) (key : string) (algorithms : list string)
    (w : World) : outcome dict :=
  match tok with
  | Signed claims k a =>
      if bool_decide (k = key) && bool_decide (a ∈ algorithms) then
        validate_claims claims (clock w)
      else Raised (Error JWTError "Signature verification failed.")
  | Opaque _ => Raised (Error JWTError "Not enough segments")
  end.

Definition faulty {A} (c : call) (w : World)
    (normal : outcome A * World) : outcome A * World :=
  match faults (oracles w) c with
  | Some e => (Raised e, w)
  | None => normal
  end.

Definition answer_call (c : call) : World -> outcome (ret c) * World :=
  match c as c0 return World -> outcome (ret c0) * World with
  | cipher_provider_verify raw digest =>
      fun w => (Returned (verify_of (oracles w) raw digest), w)
  | cipher_provider_hash password =>
      fun w => (Returned (hash_of (oracles w) password), w)
  | json_loads s =>
      fun w => (json_decoder.loads (decoder_limits (oracles w)) s, w)
  | jwt_encode payload key alg =>
      fun w => (Returned (Signed payload key alg), w)
  | jwt_decode tok key algs => fun w => (decode tok key algs w, w)
  | cosmos_db_get_user_by_email email as c0 =>
      fun w => faulty c0 w (get_user_by_email email w)
  | cosmos_db_create_user doc as c0 => fun w => faulty c0 w (create_user doc w)
  | cosmos_db_create_media doc as c0 =>
      fun w => faulty c0 w (create_media doc w)
  | cosmos_db_get_media_by_id media_id user_id as c0 =>
      fun w => faulty c0 w (Returned (find_media media_id w), w)
  | cosmos_db_update_media media_id user_id changes as c0 =>
      fun w => faulty c0 w (update_media media_id user_id changes w)
  | cosmos_db_delete_media media_id user_id as c0 =>
      fun w => faulty c0 w (delete_media media_id user_id w)
  | blob_storage_upload_file data user_id file_name mime as c0 =>
      fun w => faulty c0 w (upload_file data user_id file_name mime w)
  | blob_storage_delete_file blob_name as c0 =>
      fun w => faulty c0 w (delete_file blob_name w)
  | validate_file_type f => fun w => (classify f w, w)
  | validate_file_size f => fun w => (check_size f w, w)
  | generate_thumbnail data as c0 =>
      fun w => faulty c0 w (derive_thumbnail data w, w)
  | file_read f as c0 => fun w => faulty c0 w (Returned (file f), w)
  | file_seek f pos as c0 => fun w => faulty c0 w (Returned tt, w)
  end.

Definition reply_query (q : query) : World -> qret q * World :=
  match q as q0 return World -> qret q0 * World with
  | utcnow => fun w => (clock w, w)
  | uuid4 => fun w => (uuid_of (oracles w) (counter w), fresh w)
  end.

Definition reference : Env :=
  {| St := World; answer := answer_call; reply := reply_query |}.

End world.

(** ** Error kinds of the specification *)

Inductive error_kind :=
| ValidationError | AuthError | Forbidden | NotFound | InternalError.

(** The kind an HTTP failure is surfaced as, by its status code. *)
Definition kind_of (e : exn) : option error_kind :=
  match e with
  | HTTPException c _ _ =>
      if Z.eqb c HTTP_400_BAD_REQUEST then Some ValidationError
      else if Z.eqb c HTTP_401_UNAUTHORIZED then Some AuthError
      else if Z.eqb c HTTP_403_FORBIDDEN then Some Forbidden
      else if Z.eqb c HTTP_404_NOT_FOUND then Some NotFound
      else if Z.eqb c HTTP_500_INTERNAL_SERVER_ERROR then Some InternalError
      else None
  | Error _ _ => None
  end.

(** ValidationError::BadTagFormat, as [upload_media] raises it. *)
Definition bad_tag_format : exn :=
  HTTPException HTTP_400_BAD_REQUEST
    "Invalid tags format. Must be a JSON array." None.

(** The duplicate-email validation error of [register]. *)
Definition duplicate_email : exn :=
  HTTPException HTTP_400_BAD_REQUEST "User with this email already exists" None.

(** The failure of [login]. *)
Definition invalid_login : exn :=
  HTTPException HTTP_401_UNAUTHORIZED "Invalid email or password" None.

Definition media_not_found : exn :=
  HTTPException HTTP_404_NOT_FOUND "Media not found" None.

Definition access_forbidden : exn :=
  HTTPException HTTP_403_FORBIDDEN
    "You don't have permission to access this media" None.

Definition delete_failed : exn :=
  HTTPException HTTP_500_INTERNAL_SERVER_ERROR "Failed to delete media" None.

(** A JSON array all of whose elements are strings. *)
Definition is_string_array (v : json) : bool :=
  match v with
  | JArr l => forallb (fun x => match x with JStr _ => true | _ => false end) l
  | _ => false
  end.


(** A claim set that holds none of the registered claims [iat], [nbf],
    [aud], [jti] and [at_hash], which the handlers never set. *)
Definition plain (claims : dict) : Prop :=
  claims !! "iat" = None /\ claims !! "nbf" = None
  /\ claims !! "aud" = None /\ claims !! "jti" = None
  /\ claims !! "at_hash" = None.

(** A claim set that has not expired at the instant [now]: it has no
    [exp], or an integer [exp] that is not before [now]. *)
Definition live (claims : dict) (now : Z) : bool :=
  match claims !! "exp" with
  | None => true
  | Some (JInt e) => negb (Z.ltb e now)
  | Some _ => false
  end.


(** The changes [update_media_metadata] passes to the store at the instant
    [now]. *)
Definition property_changes (now : Z) (payload : MediaUpdate) : dict :=
  let changes : dict := <["updatedAt" := JInt now]> ∅ in
  let changes :=
    match mu_description payload with
    | Some d => <["description" := JStr d]> changes
    | None => changes
    end in
  match mu_tags payload with
  | Some t => <["tags" := JArr (JStr <$> t)]> changes
  | None => changes
  end.

(** ** A sample world *)

Module sample.
Import world.

(** The limits of an interpreter with its default settings, ten calls
    deep. *)
Definition limits0 : json_decoder.limits :=
  {| json_decoder.max_nesting := 990;
     json_decoder.int_max_str_digits := 4300 |}.

Definition oracles0 : Oracles := {|
  max_file_size := 10;
  image_types := ["image/png"; "image/jpeg"];
  video_types := ["video/mp4"];
  hash_of := fun p => "$2b$" ++ p;
  verify_of := fun p d => eq_str d ("$2b$" ++ p);
  thumbnail_of := fun b => Some ("thumb:" ++ b);
  uuid_of := fun n => "id-" ++ str_of_Z (Z.of_nat n);
  blob_key := fun u f n => u ++ "/" ++ str_of_Z (Z.of_nat n) ++ "_" ++ f;
  blob_url := fun k => "https://blob/" ++ k;
  decoder_limits := limits0;
  faults := fun _ => None
|}.

Definition settings0 : Settings := {|
  jwt_secret_key := "secret";
  jwt_algorithm := "HS256";
  jwt_access_token_expire_minutes := 30
|}.

Definition alice : dict :=
  <["id" := JStr "a1"]>
  (<["username" := JStr "alice"]>
  (<["email" := JStr "alice@example.org"]>
  (<["hashed_password" := JStr "$2b$wonderland"]>
  (<["created_at" := JInt 900]> ∅)))).

(** An image of account [a1], with a thumbnail. *)
Definition photo : dict :=
  <["id" := JStr "m1"]>
  (<["userId" := JStr "a1"]>
  (<["fileName" := JStr "a1/0_cat.png"]>
  (<["originalFileName" := JStr "cat.png"]>
  (<["mediaType" := JStr "image"]>
  (<["fileSize" := JInt 5]>
  (<["mimeType" := JStr "image/png"]>
  (<["blobUrl" := JStr "https://blob/a1/0_cat.png"]>
  (<["thumbnailUrl" := JStr "https://blob/a1/1_thumb_cat.png"]>
  (<["description" := JStr "my cat"]>
  (<["tags" := JArr [JStr "cat"]]>
  (<["uploadedAt" := JInt 950]>
  (<["updatedAt" := JInt 950]> ∅)))))))))))).

Definition w0 : World := {|
  oracles := oracles0;
  users := [alice];
  media := [photo];
  blobs := [("a1/0_cat.png", "12345"); ("a1/1_thumb_cat.png", "thumb:12345")];
  clock := 1000;
  counter := 2
|}.

(** The claim set of a token of [alice] that expires at 2800, and the same
    without subject. *)
Definition anonymous_claims : dict :=
  <["email" := JStr "alice@example.org"]> (<["exp" := JInt 2800]> ∅).

Definition alice_claims : dict := <["sub" := JStr "a1"]> anonymous_claims.

Definition bearer (tok : token) : HTTPAuthorizationCredentials :=
  {| scheme := "Bearer"; credentials := tok |}.


(** The sample world at a later instant. *)
Definition at_time (t : Z) : World := {|
  oracles := oracles0; users := [alice]; media := [photo]; blobs := [];
  clock := t; counter := 2
|}.


(** The sample world with failing store calls. *)
Definition failing (fl : call -> option exn) : World := {|
  oracles := {|
    max_file_size := 10;
    image_types := ["image/png"; "image/jpeg"];
    video_types := ["video/mp4"];
    hash_of := hash_of oracles0;
    verify_of := verify_of oracles0;
    thumbnail_of := thumbnail_of oracles0;
    uuid_of := uuid_of oracles0;
    blob_key := blob_key oracles0;
    blob_url := blob_url oracles0;
    decoder_limits := limits0;
    faults := fl
  |};
  users := [alice];
  media := [photo];
  blobs := [("a1/0_cat.png", "12345"); ("a1/1_thumb_cat.png", "thumb:12345")];
  clock := 1000;
  counter := 2
|}.

Definition unreachable : exn :=
  Error (OtherError "ServiceRequestError") "blob store unreachable".

(** The deletion of the blob [name] fails. *)
Definition delete_fails (name : string) (c : call) : option exn :=
  match c with
  | blob_storage_delete_file (JStr n) =>
      if String.eqb n name then Some unreachable else None
  | _ => None
  end.


(** [c * n] *)
Fixpoint repeated (c : ascii) (n : nat) : string :=
  match n with
  | O => ""
  | S k => String c (repeated c k)
  end.



Definition png : UploadFile :=
  {| filename := "dog.png"; content_type := "image/png"; file := "67890" |}.

(** An oversized file of an unsupported type. *)
Definition big_text : UploadFile :=
  {| filename := "notes.txt"; content_type := "text/plain";
     file := "0123456789abcdef" |}.

Definition big_png : UploadFile :=
  {| filename := "big.png"; content_type := "image/png";
     file := "0123456789abcdef" |}.

End sample.

(** ** Static shape of a handler *)

(** Every call a handler can make, whatever it is answered, satisfies
    [P]. *)
Fixpoint all_calls {A} (P : call -> Prop) (p : prog A) : Prop :=
  match p with
  | Ret _ | Raise _ => True
  | Call c k => P c /\ forall o, all_calls P (k o)
  | Ask q k => forall x, all_calls P (k x)
  | Log _ _ k => all_calls P k
  | Throw _ => True
  end.

(** The handler throws nothing: it has no suspension point at which
    the request can be cancelled. *)
Fixpoint no_throw {A} (p : prog A) : Prop :=
  match p with
  | Ret _ | Raise _ => True
  | Call c k => forall o, no_throw (k o)
  | Ask q k => forall x, no_throw (k x)
  | Log _ _ k => no_throw k
  | Throw _ => False
  end.

(** An outcome that is a value or an [HTTPException]. *)
Definition http_only {A} (o : outcome A) : Prop :=
  match o with
  | Returned _ => True
  | Raised e => is_HTTPException e = true
  end.

(** The calls that read and do not write. *)
Definition read_only (c : call) : Prop := is_write c = false.

(** The calls that neither delete nor update what is stored. *)
Definition keeps_stored (c : call) : Prop :=
  match c with
  | blob_storage_delete_file _ | cosmos_db_delete_media _ _
  | cosmos_db_update_media _ _ _ => False
  | _ => True
  end.

(** The dict literal of [register]. *)
Definition account_record (account_id : string) (account_params : UserCreate)
    (hashed : string) (created_at : Z) : dict :=
  <["id" := JStr account_id]>
  (<["username" := JStr (uc_username account_params)]>
  (<["email" := JStr (uc_email account_params)]>
  (<["hashed_password" := JStr hashed]>
  (<["created_at" := JInt created_at]> ∅)))).

(** The claim set [register] and [login] sign for an account, at the
    instant [now]. *)
Definition identity_claims (settings : Settings) (id email : json) (now : Z)
  : dict :=
  <["exp" := JInt (now + 60 * jwt_access_token_expire_minutes settings)]>
  (<["sub" := id]> (<["email" := email]> ∅)).

(** ** Failures and outcomes of the media routes *)

Definition update_forbidden : exn :=
  HTTPException HTTP_403_FORBIDDEN
    "You don't have permission to update this media" None.

Definition delete_forbidden : exn :=
  HTTPException HTTP_403_FORBIDDEN
    "You don't have permission to delete this media" None.

(** The reference world [s] that a delete of the asset [media_id] by its
    owner [user_id] leaves behind the world [w]: the records of that
    asset and owner are gone, and so is every blob under the storage
    key of the asset. *)
Definition deleted (w : world.World) (media_id user_id : string)
    (s : world.World) : Prop :=
  exists asset,
    world.find_media media_id w = Some asset
    /\ world.oracles s = world.oracles w
    /\ world.users s = world.users w
    /\ world.media s
       = List.filter (fun x => negb (world.owned media_id user_id x))
           (world.media w)
    /\ (forall name data,
          asset !! "fileName" = Some (JStr name) ->
          ~ In (name, data) (world.blobs s)).

(** ** routes_media.py: the listing routes *)

(** [search_media] and [get_media_list] make one call each, to two
    operations of the document store that no other handler uses; they
    are embedded with a call type of their own.  The bounds that the
    framework checks on the query parameters before a handler runs are
    not represented. *)
Module listing.

Inductive call :=
| cosmos_db_search_media (user_id query : string) (page page_size : Z)
| cosmos_db_get_user_media (user_id : string) (page page_size : Z)
    (media_type : option string).

(** Both calls return the records of one page and the total count. *)
Definition ret : Type := (list dict * Z)%type.

Inductive prog (A : Type) : Type :=
| Ret (a : A)
| Raise (e : exn)
| Call (c : call) (k : outcome ret -> prog A)
| Log (l : level) (msg : string) (k : prog A).
Arguments Ret {A} a.
Arguments Raise {A} e.
Arguments Call {A} c k.
Arguments Log {A} l msg k.

Fixpoint bind {A B} (m : prog A) (f : A -> prog B) : prog B :=
  match m with
  | Ret a => f a
  | Raise e => Raise e
  | Call c k => Call c (fun o => bind (k o) f)
  | Log l msg k => Log l msg (bind k f)
  end.

Fixpoint try_except {A} (m : prog A) (h : exn -> prog A) : prog A :=
  match m with
  | Ret a => Ret a
  | Raise e => h e
  | Call c k => Call c (fun o => try_except (k o) h)
  | Log l msg k => Log l msg (try_except k h)
  end.

Definition call_ (c : call) : prog ret :=
  Call c (fun o => match o with Returned x => Ret x | Raised e => Raise e end).

(** [[f(x) for x in l]] *)
Fixpoint for_each {A B} (f : A -> prog B) (l : list A) : prog (list B) :=
  match l with
  | [] => Ret []
  | x :: l' =>
      bind (f x) (fun y => bind (for_each f l') (fun ys => Ret (y :: ys)))
  end.

(** Modelled from the spec: the response model [MediaResponse] of the
    absent [models] module, as in the other routes: the response is the
    document it is built from. *)
Definition MediaResponse (asset : dict) : prog dict := Ret asset.

(** Modelled from the spec: the response model [MediaListResponse] of the
    absent [models] module, a page of assets with the total count. *)
Record MediaListResponse := {
  items : list dict;
  total : Z;
  page : Z;
  pageSize : Z
}.

Definition search_media (query : string) (page pageSize : Z)
    (user_id : string) : prog MediaListResponse :=
  try_except
    (bind (call_ (cosmos_db_search_media user_id query page pageSize))
       (fun result =>
          let result_set := result.1 in
          let result_count := result.2 in
          bind (for_each MediaResponse result_set) (fun asset_entries =>
          Ret {| items := asset_entries; total := result_count;
                 page := page; pageSize := pageSize |})))
    (fun e =>
       Log ERROR ("Search media error: " ++ str_exn e)
         (Raise (HTTPException HTTP_500_INTERNAL_SERVER_ERROR
                   "Failed to search media" None))).

Definition get_media_list (page pageSize : Z) (mediaType : option string)
    (user_id : string) : prog MediaListResponse :=
  try_except
    (bind (call_ (cosmos_db_get_user_media user_id page pageSize mediaType))
       (fun result =>
          let result_set := result.1 in
          let result_count := result.2 in
          bind (for_each MediaResponse result_set) (fun asset_entries =>
          Ret {| items := asset_entries; total := result_count;
                 page := page; pageSize := pageSize |})))
    (fun e =>
       Log ERROR ("Get media list error: " ++ str_exn e)
         (Raise (HTTPException HTTP_500_INTERNAL_SERVER_ERROR
                   "Failed to retrieve media list" None))).

Record Env := {
  St : Type;
  answer : call -> St -> outcome ret * St
}.

Inductive event :=
| EvCall (c : call)
| EvLog (l : level) (msg : string).

Fixpoint run (E : Env) {A} (p : prog A) (s : St E)
  : list event * St E * outcome A :=
  match p with
  | Ret a => ([], s, Returned a)
  | Raise e => ([], s, Raised e)
  | Call c k =>
      let '(o, s1) := answer E c s in
      let '(tr, s2, r) := run E (k o) s1 in
      (EvCall c :: tr, s2, r)
  | Log l msg k =>
      let '(tr, s2, r) := run E k s in
      (EvLog l msg :: tr, s2, r)
  end.

End listing.

(** ** More sample data *)

Module scenario.

Definition bob : UserCreate :=
  {| uc_username := "bob"; uc_email := "bob@example.org";
     uc_password := "builder" |}.

Definition mp4 : UploadFile :=
  {| filename := "clip.mp4"; content_type := "video/mp4"; file := "0101" |}.

Definition unavailable : exn :=
  Error (OtherError "CosmosHttpResponseError") "document store unavailable".

(** The document store refuses new accounts. *)
Definition account_write_fails (c : call) : option exn :=
  match c with
  | cosmos_db_create_user _ => Some unavailable
  | _ => None
  end.

(** The document store refuses new asset records. *)
Definition record_write_fails (c : call) : option exn :=
  match c with
  | cosmos_db_create_media _ => Some unavailable
  | _ => None
  end.

(** The document store no longer has the record it is asked to update. *)
Definition record_gone (c : call) : option exn :=
  match c with
  | cosmos_db_update_media _ _ _ => Some (Error ValueError "Media not found")
  | _ => None
  end.

(** A document store that finds the sample photo, and fails to list. *)
Definition catalogue : listing.Env := {|
  listing.St := unit;
  listing.answer := fun c s =>
    match c with
    | listing.cosmos_db_search_media _ _ _ _ =>
        (Returned ([sample.photo], 1), s)
    | listing.cosmos_db_get_user_media _ _ _ _ =>
        (Raised (HTTPException 503 "Service unavailable" None), s)
    end
|}.

End scenario.

(** * Properties *)

Arguments truthy_dict : simpl never.
Arguments truthy_str : simpl never.
Arguments truthy : simpl never.
Arguments dict_get : simpl never.
Arguments routes_media.asset_document : simpl never.
Arguments eq_str : simpl never.
Arguments str_exn : simpl never.
Arguments replace : simpl never.
Arguments split_last : simpl never.
Arguments timegm : simpl never.
Arguments microseconds : simpl never.
Arguments timedelta_minutes : simpl never.

(** ** The model at work *)

Example replace_all : replace "abcabc" "bc" "-" = "a-a-".
Proof. reflexivity. Qed.

Example replace_empty : replace "abc" "" "-" = "-a-b-c-".
Proof. reflexivity. Qed.

Example preview_identifier :
  replace "a1/0_cat.png" (split_last "/" "" "pets/cat.png")
    ("thumb_" ++ split_last "/" "" "pets/cat.png")
  = "a1/0_thumb_cat.png".
Proof. reflexivity. Qed.

Example loads_array :
  json_decoder.loads sample.limits0 " [1, -2.5e3, true, null, []] "
  = Returned (JArr [JInt 1; JFloat "-2.5e3"; JBool true; JNull; JArr []]).
Proof. reflexivity. Qed.

Example loads_trailing_comma :
  json_decoder.loads sample.limits0 "[1,]"
  = Raised (Error JSONDecodeError "Expecting value").
Proof. reflexivity. Qed.

Example loads_extra_data :
  json_decoder.loads sample.limits0 "{} x"
  = Raised (Error JSONDecodeError "Extra data").
Proof. reflexivity. Qed.

(** Five hundred opening brackets are a syntax error; a thousand pass
    the recursion limit before the end of the input is reached. *)
Example loads_unclosed :
  json_decoder.loads sample.limits0 (sample.repeated "[" 500)
  = Raised (Error JSONDecodeError "Expecting value").
Proof. vm_compute. reflexivity. Qed.

Example loads_too_deep :
  json_decoder.loads sample.limits0 (sample.repeated "[" 1000)
  = Raised (json_decoder.too_deep "array").
Proof. vm_compute. reflexivity. Qed.

(** A syntax error that comes first is the one reported. *)
Example loads_malformed_before_deep :
  json_decoder.loads sample.limits0 ("]" ++ sample.repeated "[" 1000)
  = Raised (Error JSONDecodeError "Expecting value").
Proof. vm_compute. reflexivity. Qed.

Example loads_too_many_digits :
  json_decoder.loads sample.limits0 (sample.repeated "1" 4301)
  = Raised (json_decoder.too_many_digits 4300 4301).
Proof. vm_compute. reflexivity. Qed.

(** Floats: zero, and what underflows to it, is false. *)
Example truthy_floats :
  map (fun l => truthy (JFloat l)) ["0.0"; "-0.0"; "1e-400"; "5e-324"; "0.1"]
  = [false; false; false; true; true].
Proof. vm_compute. reflexivity. Qed.

Example int_of_values :
  map int_of [JInt 7; JBool true; JFloat "1e23"; JFloat "-1.5"; JStr " 1_0 "]
  = [Returned 7; Returned 1; Returned 99999999999999991611392;
     Returned (-1); Returned 10].
Proof. vm_compute. reflexivity. Qed.

(** The claim checks of the JWT library, on the claims of [alice]: an
    audience, an [at_hash] and a future [nbf] are refused, an [iat] that
    is no number is a [TypeError]. *)
Example validate_registered_claims :
  let validate k v :=
    world.validate_claims (<[k := v]> sample.alice_claims) 1000 in
  validate "aud" (JStr "projectA")
  = Raised (world.claims_error "Invalid audience")
  /\ validate "at_hash" (JStr "x")
     = Raised (world.claims_error
                 "No access_token provided to compare against at_hash claim.")
  /\ validate "nbf" (JInt 1001)
     = Raised (world.claims_error "The token is not yet valid (nbf)")
  /\ validate "iat" (JStr "soon")
     = Raised (world.claims_error "Issued At claim (iat) must be an integer.")
  /\ validate "iat" JNull
     = Raised (Error TypeError
                 ("int() argument must be a string, a bytes-like object or a "
                  ++ "real number, not 'NoneType'"))
  /\ validate "jti" (JStr "t1")
     = Returned (<["jti" := JStr "t1"]> sample.alice_claims).
Proof. repeat split. Qed.

(** An upload in the sample world: the primary blob, the thumbnail and the
    record are written, in this order. *)
Example upload_writes :
  filter (fun ev => negb (no_write [ev]))
    (trace_of (run world.reference
                 (routes_media.upload_media sample.png (Some "a dog") None
                    "a1") sample.w0))
  = [EvCall (blob_storage_upload_file "67890" "a1" "dog.png" "image/png");
     EvCall (blob_storage_upload_file "thumb:67890" "a1" "thumb_dog.png"
               "image/jpeg");
     EvCall (cosmos_db_create_media
               (routes_media.asset_document "id-4" "a1" "a1/2_dog.png"
                  sample.png "image" 5 "https://blob/a1/2_dog.png"
                  (Some "https://blob/a1/3_thumb_dog.png") (Some "a dog")
                  JNull 1000))].
Proof. reflexivity. Qed.

(** ** Basic facts *)

Lemma eq_str_false (v : json) (s : string) : v ≠ JStr s -> eq_str v s = false.
Proof.
  destruct v; unfold eq_str; try reflexivity.
  intros H. apply String.eqb_neq. congruence.
Qed.

Lemma eq_str_true (s : string) : eq_str (JStr s) s = true.
Proof. unfold eq_str. apply String.eqb_refl. Qed.

Lemma eq_str_inv (v : json) (s : string) : eq_str v s = true -> v = JStr s.
Proof.
  destruct v; unfold eq_str; try discriminate.
  intros H. apply String.eqb_eq in H. congruence.
Qed.

Lemma truthy_dict_lookup (d : dict) (k : string) (v : json) :
  d !! k = Some v -> truthy_dict (Some d) = true.
Proof.
  intros H. unfold truthy_dict. rewrite bool_decide_eq_false_2; [reflexivity|].
  intros ->. rewrite lookup_empty in H. discriminate.
Qed.

(** Rewrites with the answers and lookups the context gives, and computes. *)
Ltac step :=
  simpl;
  repeat match goal with
    | H : answer _ _ _ = _ |- _ => rewrite H; simpl
    | H : @lookup _ _ _ _ _ _ = _ |- _ => rewrite H; simpl
    | H : truthy_dict _ = _ |- _ => rewrite H; simpl
    | H : eq_str _ _ = _ |- _ => rewrite H; simpl
    end.

(** C1. [get_media_by_id] fails with NotFound (404) when the store has no
    asset with that id, and with Forbidden (403) when the asset it finds is
    owned by another account; the two failures are of different kinds. *)
Theorem C1_get_media_by_id_not_found_vs_forbidden
    (E : Env) (s : St E) (media_id user_id : string) :
  (forall s1,
     answer E (cosmos_db_get_media_by_id media_id user_id) s
       = (Returned None, s1) ->
     result_of (run E (routes_media.get_media_by_id media_id user_id) s)
       = Raised media_not_found)
  /\ (forall asset owner s1,
     answer E (cosmos_db_get_media_by_id media_id user_id) s
       = (Returned (Some asset), s1) ->
     asset !! "userId" = Some owner ->
     owner ≠ JStr user_id ->
     result_of (run E (routes_media.get_media_by_id media_id user_id) s)
       = Raised access_forbidden)
  /\ kind_of media_not_found = Some NotFound
  /\ kind_of access_forbidden = Some Forbidden
  /\ media_not_found ≠ access_forbidden.
Proof.
  repeat split; try discriminate.
  - intros s1 H. unfold routes_media.get_media_by_id. step. reflexivity.
  - intros asset owner s1 H Ho Hne.
    pose proof (truthy_dict_lookup _ _ _ Ho) as Ht.
    pose proof (eq_str_false _ _ Hne) as Hq.
    unfold routes_media.get_media_by_id, getitem, the. step. reflexivity.
Qed.

(** In the sample world the image [m1] of account [a1] is refused to
    account [b2], and an unknown id is not found. *)
Lemma C1_witness :
  result_of (run world.reference
               (routes_media.get_media_by_id "m1" "b2") sample.w0)
    = Raised access_forbidden
  /\ result_of (run world.reference
               (routes_media.get_media_by_id "m9" "b2") sample.w0)
    = Raised media_not_found.
Proof.
  split.
  - apply (proj1 (proj2 (C1_get_media_by_id_not_found_vs_forbidden
             world.reference sample.w0 "m1" "b2"))
             sample.photo (JStr "a1") sample.w0).
    + reflexivity.
    + reflexivity.
    + discriminate.
  - apply (proj1 (C1_get_media_by_id_not_found_vs_forbidden
             world.reference sample.w0 "m9" "b2") sample.w0).
    reflexivity.
Defined.



(** ** Tokens *)

(** What [extract_authenticated_id] yields, from what the JWT library
    answers, in any environment. *)
Lemma extract_authenticated_id_result
    (settings : Settings) (E : Env) (s s1 : St E)
    (cred : HTTPAuthorizationCredentials) (o : outcome dict) :
  answer E (jwt_decode (credentials cred) (jwt_secret_key settings)
              [jwt_algorithm settings]) s = (o, s1) ->
  result_of (run E (auth.extract_authenticated_id settings cred) s)
  = match o with
    | Raised e =>
        if is_JWTError e then Raised auth.credentials_exception else Raised e
    | Returned payload =>
        if is_None (dict_get payload "sub")
        then Raised auth.credentials_exception
        else Returned (dict_get payload "sub")
    end.
Proof.
  intros H. unfold auth.extract_authenticated_id, auth.parse_jwt_payload.
  step. destruct o as [payload|e]; simpl.
  - destruct (is_None (dict_get payload "sub")); reflexivity.
  - destruct (is_JWTError e); reflexivity.
Qed.

(** What the claim checks of the library come to for a plain claim
    set that has not expired. *)
Lemma validate_plain (claims : dict) (now : Z) :
  plain claims -> live claims now = true ->
  world.validate_claims claims now
  = match claims !! "sub" with
    | None | Some (JStr _) => Returned claims
    | Some _ => Raised (Error JWTClaimsError "Subject must be a string.")
    end.
Proof.
  intros (Hiat & Hnbf & Haud & Hjti & Hat) Hlive.
  unfold world.validate_claims, world.validate_iat, world.validate_nbf,
    world.validate_exp, world.validate_aud, world.validate_sub,
    world.validate_jti, world.validate_at_hash, world.time_claim.
  rewrite Hiat, Hnbf, Haud, Hjti, Hat. unfold live in Hlive.
  destruct (claims !! "exp") as [[]|]; try discriminate Hlive; simpl.
  - destruct (Z.ltb z now); [discriminate Hlive|]. simpl.
    destruct (claims !! "sub") as [[]|]; reflexivity.
  - destruct (claims !! "sub") as [[]|]; reflexivity.
Qed.

Lemma signature_accepted (key alg : string) :
  bool_decide (key = key) && bool_decide (alg ∈ [alg]) = true.
Proof.
  rewrite bool_decide_eq_true_2 by reflexivity.
  rewrite bool_decide_eq_true_2 by (apply list_elem_of_singleton; reflexivity).
  reflexivity.
Qed.

Lemma decode_signed (claims : dict) (key alg : string) (w : world.World) :
  plain claims ->
  live claims (world.clock w) = true ->
  world.decode (Signed claims key alg) key [alg] w
  = match claims !! "sub" with
    | None | Some (JStr _) => Returned claims
    | Some _ => Raised (Error JWTClaimsError "Subject must be a string.")
    end.
Proof.
  intros Hplain Hlive. unfold world.decode. rewrite signature_accepted.
  apply validate_plain; assumption.
Qed.

Lemma live_until (claims : dict) (e now : Z) :
  claims !! "exp" = Some (JInt e) -> now <= e -> live claims now = true.
Proof.
  intros He Hle. unfold live. rewrite He.
  destruct (Z.ltb_spec e now); [lia|reflexivity].
Qed.

Lemma decode_expired (claims : dict) (key alg : string) (w : world.World)
    (e : Z) :
  claims !! "iat" = None -> claims !! "nbf" = None ->
  claims !! "exp" = Some (JInt e) ->
  e < world.clock w ->
  world.decode (Signed claims key alg) key [alg] w
  = Raised (Error ExpiredSignatureError "Signature has expired.").
Proof.
  intros Hiat Hnbf He Hlt. unfold world.decode. rewrite signature_accepted.
  unfold world.validate_claims, world.validate_iat, world.validate_nbf,
    world.validate_exp, world.time_claim.
  rewrite Hiat, Hnbf, He. simpl.
  destruct (Z.ltb_spec e (world.clock w)); [reflexivity|lia].
Qed.






Lemma timegm_offset (now d : Z) :
  timegm (microseconds now + d) = now + d / 1000000.
Proof.
  unfold timegm, microseconds. apply Z.div_add_l. discriminate.
Qed.

Lemma timegm_default (now m : Z) :
  timegm (microseconds now + timedelta_minutes m) = now + 60 * m.
Proof.
  rewrite timegm_offset. unfold timedelta_minutes.
  replace (m * 60000000) with (60 * m * 1000000) by lia.
  rewrite Z.div_mul by discriminate. reflexivity.
Qed.





(** ** Registration *)

Lemma has_lookup (k s : string) (d : dict) :
  world.has k s d = true -> d !! k = Some (JStr s).
Proof.
  unfold world.has, dict_get. intros H. apply eq_str_inv in H.
  destruct (d !! k) as [v|]; simpl in H; [congruence|discriminate].
Qed.

Lemma find_has (k s : string) (l : list dict) (d : dict) :
  List.find (world.has k s) l = Some d -> d !! k = Some (JStr s).
Proof. intros H. apply find_some in H as [_ H]. exact (has_lookup _ _ _ H). Qed.

(** When the lookup by email answers with an account, [register] stops
    there, in any environment. *)
Lemma register_known_email
    (settings : Settings) (E : Env) (s s1 : St E) (account_params : UserCreate)
    (account : dict) :
  answer E (cosmos_db_get_user_by_email (uc_email account_params)) s
    = (Returned (Some account), s1) ->
  truthy_dict (Some account) = true ->
  run E (routes_auth.register settings account_params) s
  = ([EvLog INFO ("Registration attempt for email: "
                  ++ uc_email account_params);
      EvCall (cosmos_db_get_user_by_email (uc_email account_params));
      EvLog WARNING ("Registration failed: Email already exists "
                     ++ uc_email account_params)],
     s1, Raised duplicate_email).
Proof.
  intros H Ht. unfold routes_auth.register. step. reflexivity.
Qed.

Lemma find_app_new {A} (p : A -> bool) (l : list A) (x : A) :
  List.find p l = None -> p x = true -> List.find p (l ++ [x]) = Some x.
Proof.
  intros Hn Hx. induction l as [|y l IH]; simpl in *.
  - rewrite Hx. reflexivity.
  - destruct (p y); [discriminate|]. apply IH. exact Hn.
Qed.

(** A registration that succeeds was answered by the store and has added
    one account, which the lookup by the email of the request now finds. *)
Lemma register_creates
    (settings : Settings) (w : world.World) (p : UserCreate) (tok : Token) :
  result_of (run world.reference (routes_auth.register settings p) w)
    = Returned tok ->
  let w1 :=
    state_of (run world.reference (routes_auth.register settings p) w) in
  world.oracles w1 = world.oracles w
  /\ world.faults (world.oracles w)
       (cosmos_db_get_user_by_email (uc_email p)) = None
  /\ exists account : dict,
       world.users w1 = (world.users w ++ [account])%list
       /\ List.find (world.has "email" (uc_email p)) (world.users w1)
          = Some account.
Proof.
  unfold routes_auth.register, auth.compute_digest, auth.generate_jwt_token,
    getitem.
  simpl. unfold world.faulty.
  destruct (world.faults (world.oracles w)
              (cosmos_db_get_user_by_email (uc_email p))) eqn:Hf; simpl.
  { destruct e as [? ? ?|[] ?]; simpl; discriminate. }
  destruct (List.find (world.has "email" (uc_email p)) (world.users w))
    as [a|] eqn:Hfind; simpl.
  { rewrite (truthy_dict_lookup _ _ _ (find_has _ _ _ _ Hfind)). simpl.
    discriminate. }
  unfold truthy_dict. simpl. unfold world.faulty. simpl.
  match goal with
  | |- context [cosmos_db_create_user ?d] => set (account := d) in *
  end.
  assert (Hid : account !! "id"
                = Some (JStr (world.uuid_of (world.oracles w)
                                (world.counter w))))
    by (subst account; apply lookup_insert_eq).
  assert (Husername : account !! "username" = Some (JStr (uc_username p)))
    by (subst account; rewrite lookup_insert_ne by discriminate;
        apply lookup_insert_eq).
  assert (Hemail : account !! "email" = Some (JStr (uc_email p)))
    by (subst account; do 2 rewrite lookup_insert_ne by discriminate;
        apply lookup_insert_eq).
  assert (Hcreated : account !! "created_at" = Some (JInt (world.clock w)))
    by (subst account; do 4 rewrite lookup_insert_ne by discriminate;
        apply lookup_insert_eq).
  clearbody account.
  destruct (world.faults (world.oracles w) (cosmos_db_create_user account))
    eqn:Hc; simpl.
  { destruct e as [? ? ?|[] ?]; simpl; discriminate. }
  unfold world.create_user.
  destruct (existsb _ _) eqn:Hex; simpl; [discriminate|].
  rewrite Hid, Husername, Hemail, Hcreated. simpl.
  intros _. split; [reflexivity|]. split; [reflexivity|].
  exists account. split; [reflexivity|].
  apply find_app_new; [exact Hfind|].
  unfold world.has, dict_get. rewrite Hemail. apply eq_str_true.
Qed.

(** The run of a registration whose email the store already holds. *)
Lemma register_duplicate_run
    (settings : Settings) (w : world.World) (account_params : UserCreate)
    (account : dict) :
  List.find (world.has "email" (uc_email account_params)) (world.users w)
    = Some account ->
  world.faults (world.oracles w)
    (cosmos_db_get_user_by_email (uc_email account_params)) = None ->
  run world.reference (routes_auth.register settings account_params) w
  = ([EvLog INFO ("Registration attempt for email: "
                  ++ uc_email account_params);
      EvCall (cosmos_db_get_user_by_email (uc_email account_params));
      EvLog WARNING ("Registration failed: Email already exists "
                     ++ uc_email account_params)],
     w, Raised duplicate_email).
Proof.
  intros Hfind Hfault.
  apply register_known_email with (account := account).
  - simpl. unfold world.faulty, world.get_user_by_email.
    rewrite Hfault, Hfind. reflexivity.
  - exact (truthy_dict_lookup _ _ _ (find_has _ _ _ _ Hfind)).
Qed.

(** C7. When the account store holds an account with the email of a
    registration request (and answers the lookup), [register] fails with
    the duplicate-email validation error (400) and the account store is
    left as it was: no call writes to a store, no account is added.  In
    particular, after a registration that succeeded, a second registration
    with the same email fails in this way. *)
Theorem C7_register_duplicate_email
    (settings : Settings) (w : world.World) (account_params : UserCreate) :
  let r := run world.reference
             (routes_auth.register settings account_params) w in
  (forall account,
     List.find (world.has "email" (uc_email account_params)) (world.users w)
       = Some account ->
     world.faults (world.oracles w)
       (cosmos_db_get_user_by_email (uc_email account_params)) = None ->
     result_of r = Raised duplicate_email
     /\ kind_of duplicate_email = Some ValidationError
     /\ no_write (trace_of r) = true
     /\ (forall doc, ~ called (cosmos_db_create_user doc) (trace_of r))
     /\ state_of r = w)
  /\ (forall (w0 : world.World) (first : UserCreate) (tok : Token),
     uc_email first = uc_email account_params ->
     result_of (run world.reference (routes_auth.register settings first) w0)
       = Returned tok ->
     w = state_of (run world.reference
                     (routes_auth.register settings first) w0) ->
     result_of r = Raised duplicate_email
     /\ world.users (state_of r) = world.users w).
Proof.
  intros r. split.
  - intros account Hfind Hfault. subst r.
    rewrite (register_duplicate_run settings w account_params account
               Hfind Hfault).
    repeat split. intros doc [H|[H|[H|[]]]]; discriminate.
  - intros w0 first tok Hsame Hfirst Hw.
    destruct (register_creates settings w0 first tok Hfirst)
      as [Horacles [Hfault [account [_ Hfind]]]].
    rewrite <- Hw in Horacles, Hfind. rewrite Hsame in Hfault, Hfind.
    rewrite <- Horacles in Hfault. subst r.
    rewrite (register_duplicate_run settings w account_params account
               Hfind Hfault).
    split; reflexivity.
Qed.

(** In the sample world, a registration with the email of [alice] fails
    and the store still holds [alice] alone; and of two registrations of
    [bob], the second fails and the store holds [alice] and one [bob]. *)
Lemma C7_witness :
  let again := {| uc_username := "alice2"; uc_email := "alice@example.org";
                  uc_password := "rabbit" |} in
  let bob := {| uc_username := "bob"; uc_email := "bob@example.org";
                uc_password := "builder" |} in
  let r := run world.reference
             (routes_auth.register sample.settings0 again) sample.w0 in
  let w1 := state_of (run world.reference
                        (routes_auth.register sample.settings0 bob)
                        sample.w0) in
  let r2 := run world.reference
              (routes_auth.register sample.settings0 bob) w1 in
  (result_of r = Raised duplicate_email
   /\ world.users (state_of r) = [sample.alice])
  /\ (result_of r2 = Raised duplicate_email
      /\ List.length (world.users (state_of r2)) = 2%nat).
Proof.
  intros again bob r w1 r2. split.
  - destruct (proj1 (C7_register_duplicate_email sample.settings0 sample.w0
                       again) sample.alice eq_refl eq_refl)
      as [Hr [_ [_ [_ Hs]]]].
    fold r in Hr, Hs. split; [exact Hr|]. rewrite Hs. reflexivity.
  - assert (Hfirst : exists tok,
              result_of (run world.reference
                           (routes_auth.register sample.settings0 bob)
                           sample.w0) = Returned tok)
      by (eexists; reflexivity).
    destruct Hfirst as [tok Hfirst].
    destruct (proj2 (C7_register_duplicate_email sample.settings0 w1 bob)
                sample.w0 bob tok eq_refl Hfirst eq_refl) as [Hr Hs].
    fold r2 in Hr, Hs. split; [exact Hr|]. rewrite Hs. reflexivity.
Defined.

(** ** Upload: validation *)

Lemma truthy_str_nonempty (s : string) :
  s ≠ "" -> truthy_str (Some s) = true.
Proof.
  intros H. unfold truthy_str. apply negb_true_iff, String.eqb_neq. exact H.
Qed.

(** C8, amended. An upload of a supported content type whose byte length
    exceeds the configured maximum fails with ValidationError::TooLarge,
    a 400 that reports the actual size; the only calls made are the two
    validations, so nothing is written to the blob store or to the
    document store, and the world is left as it was. *)
Theorem C8_upload_too_large
    (w : world.World) (f : UploadFile) (description tags : option string)
    (user_id kind : string) :
  world.classify f w = Returned kind ->
  world.max_file_size (world.oracles w) < world.size_of f ->
  let r := run world.reference
             (routes_media.upload_media f description tags user_id) w in
  result_of r = Raised (world.too_large (world.size_of f))
  /\ kind_of (world.too_large (world.size_of f)) = Some ValidationError
  /\ trace_of r = [EvCall (validate_file_type f); EvCall (validate_file_size f)]
  /\ no_write (trace_of r) = true
  /\ state_of r = w.
Proof.
  intros Hkind Hsize r.
  assert (Hrun : r = ([EvCall (validate_file_type f);
                       EvCall (validate_file_size f)],
                      w, Raised (world.too_large (world.size_of f)))).
  { subst r. unfold routes_media.upload_media. simpl. rewrite Hkind. simpl.
    unfold world.check_size.
    destruct (Z.ltb_spec (world.max_file_size (world.oracles w))
                (world.size_of f)); [reflexivity|lia]. }
  rewrite Hrun. repeat split.
Qed.

(** In the sample world (maximum 10 bytes) a PNG of 16 bytes is refused
    and nothing is stored. *)
Lemma C8_witness :
  let r := run world.reference
      (routes_media.upload_media sample.big_png None None "a1") sample.w0 in
  result_of r = Raised (world.too_large 16) /\ state_of r = sample.w0.
Proof.
  intros r.
  destruct (C8_upload_too_large sample.w0 sample.big_png None None
              "a1" "image" eq_refl eq_refl) as [Hr [_ [_ [_ Hs]]]].
  fold r in Hr, Hs. split; [exact Hr | exact Hs].
Defined.

(** C8 as stated fails for an oversized file of an unsupported type: the
    type is validated first, and the upload fails with
    ValidationError::UnsupportedType. *)
Lemma C8_counterexample :
  world.max_file_size (world.oracles sample.w0) < world.size_of sample.big_text
  /\ result_of (run world.reference
        (routes_media.upload_media sample.big_text None None "a1") sample.w0)
     = Raised (world.unsupported_type "text/plain")
  /\ world.unsupported_type "text/plain"
     ≠ world.too_large (world.size_of sample.big_text).
Proof.
  split; [reflexivity|]. split; [reflexivity|]. vm_compute. discriminate.
Qed.

(** C2, amended. In any environment, for an upload that passes the type
    and size validation and has a non-empty tag payload: when the decoder
    rejects the payload as a syntax error (decoding it raises
    [JSONDecodeError]) the upload fails with
    ValidationError::BadTagFormat (400), and the calls made until then
    are the two validations and the decoding, so nothing is written to
    the blob store or to the document store; when the payload decodes as
    a JSON array, whatever its elements are, the tags are accepted and
    the upload goes on to read the file. *)
Theorem C2_upload_malformed_tags
    (E : Env) (s s1 s2 : St E) (f : UploadFile)
    (description : option string) (tags user_id kind : string) (size : Z) :
  answer E (validate_file_type f) s = (Returned kind, s1) ->
  answer E (validate_file_size f) s1 = (Returned size, s2) ->
  tags ≠ "" ->
  let r := run E (routes_media.upload_media f description (Some tags) user_id)
             s in
  (forall e s3,
     answer E (json_loads tags) s2 = (Raised e, s3) ->
     is_JSONDecodeError e = true ->
     result_of r = Raised bad_tag_format
     /\ kind_of bad_tag_format = Some ValidationError
     /\ trace_of r = [EvCall (validate_file_type f);
                      EvCall (validate_file_size f);
                      EvCall (json_loads tags)]
     /\ no_write (trace_of r) = true)
  /\ (forall elements s3,
     answer E (json_loads tags) s2 = (Returned (JArr elements), s3) ->
     exists rest : list event,
       trace_of r = EvCall (validate_file_type f)
                    :: EvCall (validate_file_size f)
                    :: EvCall (json_loads tags)
                    :: EvCall (file_read f) :: rest).
Proof.
  intros Hkind Hsize Htags r. subst r. unfold routes_media.upload_media.
  rewrite (truthy_str_nonempty _ Htags). split.
  - intros e s3 Hloads He. step. rewrite He. repeat split.
  - intros elements s3 Hloads. step.
    destruct (answer E (file_read f) s3) as [o s4].
    match goal with
    | |- context [run ?E' ?p ?s'] => destruct (run E' p s') as [[tr s5] res]
    end.
    exists tr. reflexivity.
Qed.

(** In the sample world a tag payload with an unclosed bracket is refused
    and nothing is stored. *)
Lemma C2_witness :
  let r := run world.reference
      (routes_media.upload_media sample.png None (Some "[cat") "a1")
      sample.w0 in
  result_of r = Raised bad_tag_format
  /\ no_write (trace_of r) = true
  /\ state_of r = sample.w0.
Proof.
  intros r.
  destruct (C2_upload_malformed_tags world.reference
              sample.w0 sample.w0 sample.w0 sample.png None
              "[cat" "a1" "image" 5 eq_refl eq_refl) as [H _];
    [discriminate|].
  destruct (H (Error JSONDecodeError "Expecting value") sample.w0
              eq_refl eq_refl) as [Hr [_ [_ Hn]]].
  fold r in Hr, Hn. split; [exact Hr|]. split; [exact Hn | reflexivity].
Defined.

(** C2 as stated fails for a tag payload that is a JSON array of numbers:
    it is not an array of strings, yet the upload is accepted, the blob
    and the record are written, and the record carries the numbers as
    tags. *)
Lemma C2_counterexample :
  let r := run world.reference
      (routes_media.upload_media sample.png None (Some "[1, 2]") "a1")
      sample.w0 in
  json_decoder.loads sample.limits0 "[1, 2]"
  = Returned (JArr [JInt 1; JInt 2])
  /\ is_string_array (JArr [JInt 1; JInt 2]) = false
  /\ (exists asset,
        result_of r = Returned asset
        /\ asset !! "tags" = Some (JArr [JInt 1; JInt 2]))
  /\ called (blob_storage_upload_file "67890" "a1" "dog.png" "image/png")
       (trace_of r)
  /\ no_write (trace_of r) = false
  /\ List.length (world.media (state_of r)) = 2%nat.
Proof.
  intros r. split; [reflexivity|]. split; [reflexivity|]. split.
  - vm_compute. eexists. split; reflexivity.
  - split; [|split; reflexivity].
    vm_compute. do 5 right. left. reflexivity.
Qed.

(** A tag payload that is JSON but not an array: the [ValueError] raised
    for it is not caught by the clause for [JSONDecodeError], and the
    upload fails with an internal error (500) instead of the validation
    error; nothing has been written. *)
Lemma upload_tags_not_an_array :
  let r := run world.reference
      (routes_media.upload_media sample.png None (Some "{}") "a1")
      sample.w0 in
  result_of r
  = Raised (HTTPException HTTP_500_INTERNAL_SERVER_ERROR
              "Failed to upload media: Tags must be an array" None)
  /\ no_write (trace_of r) = true.
Proof. split; reflexivity. Qed.

(** A tag payload on which the decoder fails otherwise than by a syntax
    error, here a thousand opening brackets, which pass the recursion
    limit of the interpreter, and an integer literal of 4301 digits,
    which passes its digit limit: neither failure is a
    [JSONDecodeError], and the upload fails with an internal error (500)
    instead of the validation error; nothing has been written. *)
Lemma upload_tags_decoder_limits :
  let upload tags :=
    run world.reference
      (routes_media.upload_media sample.png None (Some tags) "a1")
      sample.w0 in
  let internal e :=
    HTTPException HTTP_500_INTERNAL_SERVER_ERROR
      ("Failed to upload media: " ++ str_exn e) None in
  (result_of (upload (sample.repeated "[" 1000))
   = Raised (internal (json_decoder.too_deep "array"))
   /\ no_write (trace_of (upload (sample.repeated "[" 1000))) = true)
  /\ (result_of (upload (sample.repeated "1" 4301))
      = Raised (internal (json_decoder.too_many_digits 4300 4301))
      /\ no_write (trace_of (upload (sample.repeated "1" 4301))) = true).
Proof. vm_compute. repeat split. Qed.

(** ** Deletion *)

(** Case analysis on the next answer of the environment. *)
Ltac answer_cases :=
  repeat match goal with
    | |- context [answer ?E ?c ?s] =>
        let o := fresh "o" in
        let s' := fresh "s" in
        let H := fresh "Hanswer" in
        destruct (answer E c s) as [o s'] eqn:H; destruct o; simpl
    | |- context [is_HTTPException ?e] => is_var e; destruct e; simpl
    end.

(** C3, amended. In a delete of an owned, existing asset: a failure of
    the deletion of the primary blob aborts the operation with that
    failure (surfaced as the internal error 500 unless it is an HTTP
    exception already) and the metadata record is not deleted; when the
    primary blob is deleted, the deletion of the metadata record is always
    called, whatever the deletion of the thumbnail does, and a failure of
    the deletion of the thumbnail is logged as a warning and the operation
    completes. *)
Theorem C3_delete_media_blob_failures
    (E : Env) (s s1 : St E) (media_id user_id : string) (asset : dict)
    (file_name : json) :
  answer E (cosmos_db_get_media_by_id media_id user_id) s
    = (Returned (Some asset), s1) ->
  asset !! "userId" = Some (JStr user_id) ->
  asset !! "fileName" = Some file_name ->
  let r := run E (routes_media.delete_media media_id user_id) s in
  (forall e s2,
     answer E (blob_storage_delete_file file_name) s1 = (Raised e, s2) ->
     result_of r = Raised (if is_HTTPException e then e else delete_failed)
     /\ ~ called (cosmos_db_delete_media media_id user_id) (trace_of r))
  /\ (forall s2,
     answer E (blob_storage_delete_file file_name) s1 = (Returned tt, s2) ->
     called (cosmos_db_delete_media media_id user_id) (trace_of r))
  /\ (forall s2 s3 s4 name original e,
     answer E (blob_storage_delete_file file_name) s1 = (Returned tt, s2) ->
     truthy (dict_get asset "thumbnailUrl") = true ->
     file_name = JStr name ->
     asset !! "originalFileName" = Some (JStr original) ->
     answer E (blob_storage_delete_file
                 (JStr (replace name (split_last "/" "" original)
                          ("thumb_" ++ split_last "/" "" original)))) s2
       = (Raised e, s3) ->
     answer E (cosmos_db_delete_media media_id user_id) s3
       = (Returned tt, s4) ->
     In (EvLog WARNING ("Failed to delete thumbnail: " ++ str_exn e))
       (trace_of r)
     /\ result_of r = Returned tt).
Proof.
  intros Hget Howner Hname r.
  pose proof (truthy_dict_lookup _ _ _ Howner) as Ht.
  pose proof (eq_str_true user_id) as Hq.
  subst r. unfold routes_media.delete_media, getitem, the, dict_get.
  split; [|split].
  - intros e s2 Hdel. step. destruct e as [c d h|c m]; simpl.
    + split; [reflexivity|]. intros [H|[H|[]]]; discriminate.
    + split; [reflexivity|]. intros [H|[H|[H|[]]]]; discriminate.
  - intros s2 Hdel. step.
    destruct (truthy (default JNull (asset !! "thumbnailUrl"))); simpl.
    + destruct file_name; simpl;
        try (answer_cases; unfold called; simpl; tauto).
      destruct (asset !! "originalFileName") as [[]|]; simpl;
        answer_cases; unfold called; simpl; tauto.
    + answer_cases; unfold called; simpl; tauto.
  - intros s2 s3 s4 name original e Hdel Hthumb -> Horig Hfail Hmeta.
    unfold dict_get in Hthumb. step. rewrite Hthumb. step.
    split; [|reflexivity]. simpl. tauto.
Qed.

(** In the sample world where the deletion of the thumbnail blob of [m1]
    fails: the failure is logged, the delete completes and the record is
    gone. *)
Lemma C3_witness :
  let w := sample.failing (sample.delete_fails "a1/0_thumb_cat.png") in
  let r := run world.reference (routes_media.delete_media "m1" "a1") w in
  In (EvLog WARNING "Failed to delete thumbnail: blob store unreachable")
    (trace_of r)
  /\ result_of r = Returned tt
  /\ world.media (state_of r) = [].
Proof.
  intros w r.
  destruct (C3_delete_media_blob_failures world.reference w w "m1" "a1"
              sample.photo (JStr "a1/0_cat.png") eq_refl eq_refl eq_refl)
    as [_ [_ H]].
  destruct (H (world.delete_file (JStr "a1/0_cat.png") w).2
              (world.delete_file (JStr "a1/0_cat.png") w).2
              (world.delete_media "m1" "a1"
                 (world.delete_file (JStr "a1/0_cat.png") w).2).2
              "a1/0_cat.png" "cat.png" sample.unreachable
              eq_refl eq_refl eq_refl eq_refl eq_refl eq_refl) as [Hlog Hres].
  fold r in Hlog, Hres. split; [exact Hlog|]. split; [exact Hres|].
  reflexivity.
Defined.

(** C3 as stated fails for the primary blob: when its deletion fails, the
    delete is aborted with the internal error, the deletion of the
    metadata record is not called and the record stays in the store. *)
Lemma C3_counterexample :
  let w := sample.failing (sample.delete_fails "a1/0_cat.png") in
  let r := run world.reference (routes_media.delete_media "m1" "a1") w in
  world.find_media "m1" w = Some sample.photo
  /\ sample.photo !! "userId" = Some (JStr "a1")
  /\ (answer world.reference
        (blob_storage_delete_file (JStr "a1/0_cat.png")) w).1
     = Raised sample.unreachable
  /\ result_of r = Raised delete_failed
  /\ ~ called (cosmos_db_delete_media "m1" "a1") (trace_of r)
  /\ world.media (state_of r) = [sample.photo].
Proof.
  intros w r. repeat split.
  intros H. vm_compute in H. 
  repeat (destruct H as [H|H]; [discriminate|]). exact H.
Qed.

(** ** Upload: the thumbnail *)

Section asset_document.
Variables (asset_id user_id storage_identifier : string) (f : UploadFile)
  (asset_category : string) (content_size : Z) (storage_location : string)
  (preview_location description : option string) (label_collection : json)
  (now : Z).




End asset_document.


(** Case analysis on every choice of the reference world along an
    upload. *)
Ltac world_cases :=
  repeat (simpl; match goal with
    | |- context [world.classify ?f ?w] =>
        destruct (world.classify f w) eqn:?
    | |- context [world.check_size ?f ?w] =>
        destruct (world.check_size f w) eqn:?
    | |- context [world.faulty ?c ?w _] => unfold world.faulty at 1
    | |- context [world.derive_thumbnail ?b ?w] =>
        unfold world.derive_thumbnail at 1
    | |- context [world.faults ?o ?c] => destruct (world.faults o c) eqn:?
    | |- context [json_decoder.loads ?l ?t] =>
        destruct (json_decoder.loads l t) eqn:?
    | |- context [world.thumbnail_of ?o ?b] =>
        destruct (world.thumbnail_of o b) eqn:?
    | |- context [truthy_str ?t] => destruct (truthy_str t) eqn:?
    | |- context [String.eqb ?a "image"] =>
        destruct (String.eqb a "image") eqn:?
    | |- context [routes_media.is_list ?v] =>
        destruct (routes_media.is_list v) eqn:?
    | |- context [is_JSONDecodeError ?e] =>
        destruct (is_JSONDecodeError e) eqn:?
    | |- context [is_HTTPException ?e] => destruct (is_HTTPException e) eqn:?
    | |- context [is_Exception ?e] => destruct (is_Exception e) eqn:?
    end).








(** ** Update *)

Lemma property_changes_lookup (now : Z) (payload : MediaUpdate) (k : string) :
  property_changes now payload !! k
  = if String.eqb k "tags" then
      (fun t => JArr (JStr <$> t)) <$> mu_tags payload
    else if String.eqb k "description" then JStr <$> mu_description payload
    else if String.eqb k "updatedAt" then Some (JInt now)
    else None.
Proof.
  unfold property_changes.
  destruct (String.eqb_spec k "tags") as [->|Ht];
  [|destruct (String.eqb_spec k "description") as [->|Hd];
    [|destruct (String.eqb_spec k "updatedAt") as [->|Hu]]];
  destruct (mu_tags payload), (mu_description payload); simpl;
  repeat first [ rewrite lookup_insert_eq
               | rewrite lookup_insert_ne by congruence
               | rewrite lookup_empty ];
  reflexivity.
Qed.

Lemma has_union (changes d : dict) (k s : string) :
  changes !! k = None -> world.has k s (changes ∪ d) = world.has k s d.
Proof.
  intros H. unfold world.has, dict_get.
  rewrite lookup_union_r by exact H. reflexivity.
Qed.

Lemma find_owned (media_id user_id : string) (l : list dict) (asset : dict) :
  List.find (world.has "id" media_id) l = Some asset ->
  asset !! "userId" = Some (JStr user_id) ->
  List.find (world.owned media_id user_id) l = Some asset.
Proof.
  intros Hfind Howner. induction l as [|x l IH]; simpl in *; [discriminate|].
  unfold world.owned at 1.
  destruct (world.has "id" media_id x) eqn:Hid; simpl.
  - inversion Hfind; subst x. unfold world.has at 1, dict_get. rewrite Howner.
    simpl. rewrite eq_str_true. reflexivity.
  - apply IH. exact Hfind.
Qed.

Lemma find_updated (media_id user_id : string) (changes : dict)
    (l : list dict) (asset : dict) :
  changes !! "id" = None ->
  List.find (world.has "id" media_id) l = Some asset ->
  asset !! "userId" = Some (JStr user_id) ->
  List.find (world.has "id" media_id)
    ((fun x : dict =>
        if world.owned media_id user_id x then changes ∪ x else x) <$> l)
  = Some (changes ∪ asset).
Proof.
  intros Hc Hfind Howner. induction l as [|x l IH]; simpl in *; [discriminate|].
  destruct (world.has "id" media_id x) eqn:Hid.
  - inversion Hfind; subst x.
    assert (Ho : world.owned media_id user_id asset = true).
    { unfold world.owned. rewrite Hid. unfold world.has, dict_get.
      rewrite Howner. simpl. apply eq_str_true. }
    rewrite Ho. rewrite (has_union _ _ _ _ Hc), Hid. reflexivity.
  - assert (Ho : world.owned media_id user_id x = false).
    { unfold world.owned. rewrite Hid. reflexivity. }
    rewrite Ho, Hid. apply IH. exact Hfind.
Qed.

(** C9. An update of an owned, existing asset returns and stores the
    record with updatedAt refreshed to now, with description and tags
    replaced when the request supplies them and left as they were when it
    omits them, and with every other field unchanged.  In particular an
    update with only a description leaves the tags unchanged, and an
    update with only tags leaves the description unchanged. *)
Theorem C9_update_changes_only_supplied_fields
    (w : world.World) (media_id user_id : string) (payload : MediaUpdate)
    (asset : dict) :
  world.find_media media_id w = Some asset ->
  asset !! "userId" = Some (JStr user_id) ->
  world.faults (world.oracles w)
    (cosmos_db_get_media_by_id media_id user_id) = None ->
  (forall changes,
     world.faults (world.oracles w)
       (cosmos_db_update_media media_id user_id changes) = None) ->
  let r := run world.reference
             (routes_media.update_media_metadata media_id payload user_id)
             w in
  exists revised,
    result_of r = Returned revised
    /\ world.find_media media_id (state_of r) = Some revised
    /\ revised !! "updatedAt" = Some (JInt (world.clock w))
    /\ revised !! "description"
       = match mu_description payload with
         | Some d => Some (JStr d)
         | None => asset !! "description"
         end
    /\ revised !! "tags"
       = match mu_tags payload with
         | Some t => Some (JArr (JStr <$> t))
         | None => asset !! "tags"
         end
    /\ forall k, k ≠ "updatedAt" -> k ≠ "description" -> k ≠ "tags" ->
         revised !! k = asset !! k.
Proof.
  intros Hfind Howner Hget Hupd r.
  pose proof (truthy_dict_lookup _ _ _ Howner) as Ht.
  pose proof (eq_str_true user_id) as Hq.
  set (changes := property_changes (world.clock w) payload).
  exists (changes ∪ asset).
  assert (Hrun :
    result_of r = Returned (changes ∪ asset)
    /\ world.media (state_of r)
       = (fun x : dict =>
            if world.owned media_id user_id x then changes ∪ x else x)
           <$> world.media w).
  { subst r.
    unfold routes_media.update_media_metadata, routes_media.MediaResponse,
      getitem, the.
    simpl. unfold world.faulty. rewrite Hget, Hfind. simpl.
    rewrite Ht. simpl. rewrite Howner. simpl. rewrite Hq. simpl.
    unfold world.faulty. rewrite Hupd. unfold world.update_media.
    fold (property_changes (world.clock w) payload). fold changes.
    rewrite (find_owned _ _ _ _ Hfind Howner). simpl. split; reflexivity. }
  destruct Hrun as [Hres Hmedia].
  split; [exact Hres|]. split.
  { unfold world.find_media. rewrite Hmedia.
    apply find_updated; [|exact Hfind|exact Howner].
    unfold changes. rewrite property_changes_lookup. reflexivity. }
  unfold changes. split; [|split; [|split]].
  - apply lookup_union_Some_l. rewrite property_changes_lookup. reflexivity.
  - destruct (mu_description payload) as [d|] eqn:Hd.
    + apply lookup_union_Some_l.
      rewrite property_changes_lookup, Hd. reflexivity.
    + apply lookup_union_r.
      rewrite property_changes_lookup, Hd. reflexivity.
  - destruct (mu_tags payload) as [t|] eqn:Htags.
    + apply lookup_union_Some_l.
      rewrite property_changes_lookup, Htags. reflexivity.
    + apply lookup_union_r.
      rewrite property_changes_lookup, Htags. reflexivity.
  - intros k Hu Hd Htg. apply lookup_union_r.
    rewrite property_changes_lookup.
    destruct (String.eqb_spec k "tags"); [contradiction|].
    destruct (String.eqb_spec k "description"); [contradiction|].
    destruct (String.eqb_spec k "updatedAt"); [contradiction|]. reflexivity.
Qed.

(** In the sample world, an update of [m1] with a description only keeps
    its tags and its owner. *)
Lemma C9_witness :
  let r := run world.reference
      (routes_media.update_media_metadata "m1"
         {| mu_description := Some "tabby"; mu_tags := None |} "a1")
      sample.w0 in
  exists revised,
    result_of r = Returned revised
    /\ revised !! "description" = Some (JStr "tabby")
    /\ revised !! "tags" = Some (JArr [JStr "cat"])
    /\ revised !! "updatedAt" = Some (JInt 1000)
    /\ revised !! "userId" = Some (JStr "a1").
Proof.
  intros r.
  destruct (C9_update_changes_only_supplied_fields sample.w0 "m1" "a1"
              {| mu_description := Some "tabby"; mu_tags := None |}
              sample.photo eq_refl eq_refl eq_refl (fun _ => eq_refl))
    as [revised [Hr [_ [Hu [Hd [Ht Hk]]]]]].
  fold r in Hr. exists revised. split; [exact Hr|].
  split; [exact Hd|]. split; [exact Ht|]. split; [exact Hu|].
  rewrite Hk by discriminate. reflexivity.
Defined.

(** * Further properties of the handlers *)

(** ** Runs and traces *)

Lemma result_of_cons {S A} (ev : event) (x : list event * S * outcome A) :
  result_of (let '(tr, s, r) := x in (ev :: tr, s, r)) = result_of x.
Proof. destruct x as [[tr s] r]. reflexivity. Qed.

Lemma trace_of_cons {S A} (ev : event) (x : list event * S * outcome A) :
  trace_of (let '(tr, s, r) := x in (ev :: tr, s, r)) = ev :: trace_of x.
Proof. destruct x as [[tr s] r]. reflexivity. Qed.

Lemma state_of_cons {S A} (ev : event) (x : list event * S * outcome A) :
  state_of (let '(tr, s, r) := x in (ev :: tr, s, r)) = state_of x.
Proof. destruct x as [[tr s] r]. reflexivity. Qed.

(** A [try] that throws nothing and whose handlers raise nothing but
    HTTP exceptions yields nothing but HTTP exceptions. *)
Lemma try_except_http_only (E : Env) {A} (m : prog A) (h : exn -> prog A) :
  no_throw m ->
  (forall e s, http_only (result_of (run E (h e) s))) ->
  forall s, http_only (result_of (run E (try_except m h) s)).
Proof.
  intros Hm Hh.
  induction m as [a|e|c k IH|q k IH|l msg k IH|e]; intros s; simpl in *.
  - exact I.
  - apply Hh.
  - destruct (answer E c s) as [o s1]. rewrite result_of_cons.
    apply IH, Hm.
  - destruct (reply E q s) as [x s1]. rewrite result_of_cons.
    apply IH, Hm.
  - rewrite result_of_cons. apply IH, Hm.
  - destruct Hm.
Qed.

Lemma no_throw_bind {A B} (m : prog A) (f : A -> prog B) :
  no_throw m -> (forall a, no_throw (f a)) -> no_throw (bind m f).
Proof.
  intros Hm Hf. induction m as [a|e|c k IH|q k IH|l msg k IH|e]; simpl in *.
  - apply Hf.
  - exact I.
  - intros o. apply IH, Hm.
  - intros x. apply IH, Hm.
  - apply IH, Hm.
  - exact Hm.
Qed.

Lemma no_throw_try_except {A} (m : prog A) (h : exn -> prog A) :
  no_throw m -> (forall e, no_throw (h e)) -> no_throw (try_except m h).
Proof.
  intros Hm Hh. induction m as [a|e|c k IH|q k IH|l msg k IH|e]; simpl in *.
  - exact I.
  - apply Hh.
  - intros o. apply IH, Hm.
  - intros x. apply IH, Hm.
  - apply IH, Hm.
  - exact Hm.
Qed.

(** The trace of a run holds only calls the handler can make. *)
Lemma all_calls_trace (E : Env) {A} (P : call -> Prop) (p : prog A) :
  all_calls P p ->
  forall s c, called c (trace_of (run E p s)) -> P c.
Proof.
  unfold called.
  induction p as [a|e|c k IH|q k IH|l msg k IH|e]; simpl; intros Hp s c0 Hin.
  - destruct Hin.
  - destruct Hin.
  - destruct Hp as [Hc Hk]. destruct (answer E c s) as [o s1].
    rewrite trace_of_cons in Hin. destruct Hin as [Heq|Hin].
    + inversion Heq; subst. exact Hc.
    + exact (IH o (Hk o) s1 c0 Hin).
  - destruct (reply E q s) as [x s1].
    rewrite trace_of_cons in Hin. destruct Hin as [Heq|Hin]; [discriminate|].
    exact (IH x (Hp x) s1 c0 Hin).
  - rewrite trace_of_cons in Hin. destruct Hin as [Heq|Hin]; [discriminate|].
    exact (IH Hp s c0 Hin).
  - destruct Hin.
Qed.

Lemma all_calls_bind {A B} (P : call -> Prop) (m : prog A) (f : A -> prog B) :
  all_calls P m -> (forall a, all_calls P (f a)) -> all_calls P (bind m f).
Proof.
  intros Hm Hf. induction m as [a|e|c k IH|q k IH|l msg k IH|e]; simpl in *.
  - apply Hf.
  - exact I.
  - destruct Hm as [Hc Hk]. split; [exact Hc|]. intros o. apply IH, Hk.
  - intros x. apply IH, Hm.
  - apply IH, Hm.
  - exact I.
Qed.

Lemma all_calls_try_except {A} (P : call -> Prop) (m : prog A)
    (h : exn -> prog A) :
  all_calls P m -> (forall e, all_calls P (h e)) ->
  all_calls P (try_except m h).
Proof.
  intros Hm Hh. induction m as [a|e|c k IH|q k IH|l msg k IH|e]; simpl in *.
  - exact I.
  - apply Hh.
  - destruct Hm as [Hc Hk]. split; [exact Hc|]. intros o. apply IH, Hk.
  - intros x. apply IH, Hm.
  - apply IH, Hm.
  - exact I.
Qed.

(** Walks through a handler, whatever its calls are answered. *)
Ltac walk :=
  repeat (simpl;
    match goal with
    | |- True => exact I
    | |- _ /\ _ => split
    | |- forall _, _ => intro
    | |- all_calls _ (bind _ _) => apply all_calls_bind
    | |- all_calls _ (try_except _ _) => apply all_calls_try_except
    | |- all_calls _ (match ?x with _ => _ end) => destruct x
    | |- all_calls _ (if ?b then _ else _) => destruct b
    | |- no_throw (bind _ _) => apply no_throw_bind
    | |- no_throw (try_except _ _) => apply no_throw_try_except
    | |- no_throw (match ?x with _ => _ end) => destruct x
    | |- no_throw (if ?b then _ else _) => destruct b
    | |- read_only _ => reflexivity
    | |- keeps_stored _ => exact I
    end).

Ltac http_handler :=
  let e := fresh "e" in
  let s := fresh "s" in
  intros e s; destruct e as [? ? ?|[] ?]; simpl; reflexivity.

(** Case analysis on everything an environment can answer along a
    handler. *)
Ltac env_cases :=
  repeat (simpl;
    match goal with
    | H : String.eqb ?k "image" = _ |- context [String.eqb ?k "image"] =>
        rewrite H
    | |- context [answer ?E ?c ?s] =>
        destruct (answer E c s) as [[?|?] ?] eqn:?
    | |- context [reply ?E ?q ?s] => destruct (reply E q s) as [? ?] eqn:?
    | |- context [routes_media.is_list ?v] =>
        destruct (routes_media.is_list v)
    | |- context [is_JSONDecodeError ?e] =>
        is_var e; destruct e as [? ? ?|[] ?]
    | |- context [is_HTTPException ?e] =>
        is_var e; destruct e as [? ? ?|[] ?]
    | |- context [is_Exception ?e] =>
        is_var e; destruct e as [? ? ?|[] ?]
    | |- context [truthy_str ?t] => destruct (truthy_str t)
    | |- context [String.eqb ?k "image"] => destruct (String.eqb k "image")
    end).

(** Reads an event off a concrete trace. *)
Ltac in_trace :=
  unfold called; simpl; intros;
  repeat match goal with
    | H : _ \/ _ |- _ => destruct H
    | H : False |- _ => destruct H
    | H : EvCall _ = EvCall _ |- _ => inversion H; clear H
    | H : EvAsk _ = EvCall _ |- _ => discriminate H
    | H : EvLog _ _ = EvCall _ |- _ => discriminate H
    end;
  auto.

(** ** Failures of the routes *)

(** X1. Whatever the account store and the libraries answer or raise,
    [register] and [login] either return or raise an [HTTPException]:
    no other exception leaves these routes. *)
Theorem X1_auth_routes_fail_with_http_exceptions_only
    (settings : Settings) (E : Env) (s : St E) :
  (forall account_params,
     http_only
       (result_of (run E (routes_auth.register settings account_params) s)))
  /\ (forall credential_payload,
     http_only
       (result_of (run E (routes_auth.login settings credential_payload) s))).
Proof.
  split; intros; apply try_except_http_only; try http_handler.
  - unfold auth.compute_digest, auth.generate_jwt_token, getitem, log,
      call_, ask.
    walk.
  - unfold auth.validate_credential, auth.generate_jwt_token, getitem, log,
      call_, ask.
    walk.
Qed.

(** X2. Whatever the stores and the helpers answer or raise,
    [get_media_by_id], [update_media_metadata] and [delete_media] either
    return or raise an [HTTPException].  So does [upload_media], unless
    the request is cancelled at one of its two suspension points, the
    reading and the rewinding of the uploaded file: the
    [CancelledError] then leaves the route as it is, after the file was
    asked for and before anything is written. *)
Theorem X2_media_routes_failures (E : Env) (s : St E) :
  (forall f description tags user_id,
     let r := run E (routes_media.upload_media f description tags user_id)
                s in
     http_only (result_of r)
     \/ exists e,
          result_of r = Raised e
          /\ is_Exception e = false
          /\ called (file_read f) (trace_of r)
          /\ no_write (trace_of r) = true)
  /\ (forall media_id user_id,
     http_only
       (result_of (run E (routes_media.get_media_by_id media_id user_id) s)))
  /\ (forall media_id payload user_id,
     http_only
       (result_of (run E (routes_media.update_media_metadata media_id payload
                            user_id) s)))
  /\ (forall media_id user_id,
     http_only
       (result_of (run E (routes_media.delete_media media_id user_id) s))).
Proof.
  split; [|repeat split; intros; apply try_except_http_only;
            try http_handler].
  - intros f description tags user_id r. subst r.
    unfold routes_media.upload_media, routes_media.MediaResponse, await_.
    env_cases.
    all: first
      [ left; simpl; first [exact I | reflexivity]
      | right; eexists; split; [reflexivity|]; split; [reflexivity|];
        split; [in_trace | reflexivity] ].
  - unfold routes_media.MediaResponse, getitem, log, call_. walk.
  - unfold routes_media.MediaResponse, getitem, log, call_, ask. walk.
  - unfold getitem, as_str, log, call_. walk.
Qed.

(** The upload of the sample PNG, cancelled while the file is read. *)
Lemma upload_cancelled_at_read :
  let cancelled := Error CancelledError "" in
  let w := sample.failing
             (fun c => match c with
                       | file_read _ => Some cancelled
                       | _ => None
                       end) in
  run world.reference
    (routes_media.upload_media sample.png None None "a1") w
  = ([EvCall (validate_file_type sample.png);
      EvCall (validate_file_size sample.png);
      EvCall (file_read sample.png)], w, Raised cancelled).
Proof. reflexivity. Qed.

(** ** What the reading handlers never do *)

Lemma login_read_only (settings : Settings) (p : LoginRequest) :
  all_calls read_only (routes_auth.login settings p).
Proof.
  unfold routes_auth.login, auth.validate_credential,
    auth.generate_jwt_token, getitem, log, call_, ask.
  walk.
Qed.

Lemma get_media_by_id_read_only (media_id user_id : string) :
  all_calls read_only (routes_media.get_media_by_id media_id user_id).
Proof.
  unfold routes_media.get_media_by_id, routes_media.MediaResponse, getitem,
    log, call_.
  walk.
Qed.

Lemma extract_authenticated_id_read_only
    (settings : Settings) (cred : HTTPAuthorizationCredentials) :
  all_calls read_only (auth.extract_authenticated_id settings cred).
Proof.
  unfold auth.extract_authenticated_id, auth.parse_jwt_payload, call_.
  walk.
Qed.

Lemma no_write_read_only (E : Env) {A} (p : prog A) :
  all_calls read_only p -> forall s, no_write (trace_of (run E p s)) = true.
Proof.
  intros Hp s. unfold no_write. apply forallb_forall.
  intros ev Hin. destruct ev as [c| |]; try reflexivity.
  apply negb_true_iff. exact (all_calls_trace E read_only p Hp s c Hin).
Qed.

(** X3. Whatever they are answered, [login], [get_media_by_id] and
    [extract_authenticated_id] call nothing that writes to the document
    store or to the blob store. *)
Theorem X3_login_and_reads_never_write
    (settings : Settings) (E : Env) (s : St E) :
  (forall credential_payload,
     no_write (trace_of (run E (routes_auth.login settings credential_payload)
                           s)) = true)
  /\ (forall media_id user_id,
     no_write (trace_of (run E (routes_media.get_media_by_id media_id user_id)
                           s)) = true)
  /\ (forall cred,
     no_write (trace_of (run E (auth.extract_authenticated_id settings cred)
                           s)) = true).
Proof.
  split; [|split].
  - intros p. apply no_write_read_only, login_read_only.
  - intros m u. apply no_write_read_only, get_media_by_id_read_only.
  - intros c. apply no_write_read_only, extract_authenticated_id_read_only.
Qed.

(** ** Upload, then read *)

Ltac doc_lookup :=
  unfold routes_media.asset_document;
  repeat (rewrite lookup_insert_ne by discriminate);
  apply lookup_insert_eq.

Lemma check_size_returned (f : UploadFile) (w : world.World) (n : Z) :
  world.check_size f w = Returned n ->
  n = world.size_of f
  /\ world.size_of f <= world.max_file_size (world.oracles w).
Proof.
  unfold world.check_size.
  destruct (Z.ltb_spec (world.max_file_size (world.oracles w))
              (world.size_of f)) as [Hlt|Hle];
    intros Hn; inversion Hn. split; [reflexivity|assumption].
Qed.

(** What an upload that succeeds has stored. *)
Lemma upload_returns_stored
    (w : world.World) (f : UploadFile) (description tags : option string)
    (user_id : string) (asset : dict) :
  let r := run world.reference
             (routes_media.upload_media f description tags user_id) w in
  let key := world.blob_key (world.oracles w) user_id (filename f)
               (world.counter w) in
  result_of r = Returned asset ->
  world.oracles (state_of r) = world.oracles w
  /\ world.media (state_of r) = (world.media w ++ [asset])%list
  /\ world.users (state_of r) = world.users w
  /\ In (key, file f) (world.blobs (state_of r))
  /\ (exists asset_id, asset !! "id" = Some (JStr asset_id))
  /\ asset !! "userId" = Some (JStr user_id)
  /\ asset !! "fileName" = Some (JStr key)
  /\ asset !! "blobUrl" = Some (JStr (world.blob_url (world.oracles w) key))
  /\ asset !! "originalFileName" = Some (JStr (filename f))
  /\ asset !! "mimeType" = Some (JStr (content_type f))
  /\ asset !! "fileSize" = Some (JInt (world.size_of f))
  /\ asset !! "description" = Some (of_opt_str description)
  /\ asset !! "uploadedAt" = Some (JInt (world.clock w))
  /\ asset !! "updatedAt" = Some (JInt (world.clock w)).
Proof.
  intros r key. subst r key.
  unfold routes_media.upload_media, routes_media.MediaResponse.
  world_cases.
  all: try (intros Hres; discriminate Hres).
  all: intros Hres; inversion Hres; subst; clear Hres.
  all: match goal with
       | H : world.check_size _ _ = Returned _ |- _ =>
           apply check_size_returned in H as [-> _]
       end.
  all: repeat split; try doc_lookup; try (eexists; doc_lookup).
  all: simpl; rewrite ?in_app_iff; simpl; tauto.
Qed.

(** X4. In the reference world, an upload that returns an asset has
    appended exactly that record to the asset store, has left the
    accounts untouched, has stored the bytes of the file under the
    storage key the record names, and the record carries the caller as
    owner, the name, content type and size of the file, the supplied
    description, and the instant of the upload as both timestamps. *)
Theorem X4_upload_stores_what_it_returns
    (w : world.World) (f : UploadFile) (description tags : option string)
    (user_id : string) (asset : dict) :
  let r := run world.reference
             (routes_media.upload_media f description tags user_id) w in
  let key := world.blob_key (world.oracles w) user_id (filename f)
               (world.counter w) in
  result_of r = Returned asset ->
  world.media (state_of r) = (world.media w ++ [asset])%list
  /\ world.users (state_of r) = world.users w
  /\ In (key, file f) (world.blobs (state_of r))
  /\ asset !! "userId" = Some (JStr user_id)
  /\ asset !! "fileName" = Some (JStr key)
  /\ asset !! "blobUrl" = Some (JStr (world.blob_url (world.oracles w) key))
  /\ asset !! "originalFileName" = Some (JStr (filename f))
  /\ asset !! "mimeType" = Some (JStr (content_type f))
  /\ asset !! "fileSize" = Some (JInt (world.size_of f))
  /\ asset !! "description" = Some (of_opt_str description)
  /\ asset !! "uploadedAt" = Some (JInt (world.clock w))
  /\ asset !! "updatedAt" = Some (JInt (world.clock w)).
Proof.
  intros r key Hres.
  destruct (upload_returns_stored w f description tags user_id asset Hres)
    as (_ & Hmedia & Husers & Hblob & _ & Hrest).
  exact (conj Hmedia (conj Husers (conj Hblob Hrest))).
Qed.

(** The upload of the sample PNG by [a1]. *)
Lemma X4_witness :
  let r := run world.reference
             (routes_media.upload_media sample.png (Some "a dog") None "a1")
             sample.w0 in
  exists asset,
    result_of r = Returned asset
    /\ world.media (state_of r) = [sample.photo; asset]
    /\ In ("a1/2_dog.png", "67890") (world.blobs (state_of r))
    /\ asset !! "userId" = Some (JStr "a1")
    /\ asset !! "fileName" = Some (JStr "a1/2_dog.png")
    /\ asset !! "fileSize" = Some (JInt 5).
Proof.
  intros r. eexists. split; [reflexivity|].
  destruct (X4_upload_stores_what_it_returns sample.w0 sample.png
              (Some "a dog") None "a1" _ eq_refl)
    as (Hmedia & _ & Hblob & Howner & Hname & _ & _ & _ & Hsize & _).
  exact (conj Hmedia (conj Hblob (conj Howner (conj Hname Hsize)))).
Defined.

Lemma get_media_by_id_found
    (w : world.World) (media_id user_id : string) (asset : dict)
    (owner : json) :
  world.find_media media_id w = Some asset ->
  world.faults (world.oracles w)
    (cosmos_db_get_media_by_id media_id user_id) = None ->
  asset !! "userId" = Some owner ->
  result_of (run world.reference
               (routes_media.get_media_by_id media_id user_id) w)
  = if eq_str owner user_id then Returned asset else Raised access_forbidden.
Proof.
  intros Hfind Hfault Howner.
  pose proof (truthy_dict_lookup _ _ _ Howner) as Ht.
  unfold routes_media.get_media_by_id, routes_media.MediaResponse, getitem, the.
  simpl. unfold world.faulty. rewrite Hfault, Hfind. simpl. rewrite Ht. simpl.
  rewrite Howner. simpl. destruct (eq_str owner user_id); reflexivity.
Qed.

(** X5. In the reference world, an asset returned by an upload under an
    id not yet in the store can be read back by its owner, who gets the
    record the upload returned, and by no other account, which gets the
    403 of [get_media_by_id]. *)
Theorem X5_upload_then_get
    (w : world.World) (f : UploadFile) (description tags : option string)
    (user_id asset_id : string) (asset : dict) :
  let r := run world.reference
             (routes_media.upload_media f description tags user_id) w in
  result_of r = Returned asset ->
  asset !! "id" = Some (JStr asset_id) ->
  world.find_media asset_id w = None ->
  (world.faults (world.oracles w)
     (cosmos_db_get_media_by_id asset_id user_id) = None ->
   result_of (run world.reference
                (routes_media.get_media_by_id asset_id user_id) (state_of r))
   = Returned asset)
  /\ (forall other,
        other ≠ user_id ->
        world.faults (world.oracles w)
          (cosmos_db_get_media_by_id asset_id other) = None ->
        result_of (run world.reference
                     (routes_media.get_media_by_id asset_id other) (state_of r))
        = Raised access_forbidden).
Proof.
  intros r Hres Hid Hfresh.
  destruct (upload_returns_stored w f description tags user_id asset Hres)
    as (Horacles & Hmedia & _ & _ & _ & Howner & _).
  fold r in Horacles, Hmedia.
  assert (Hfind : world.find_media asset_id (state_of r) = Some asset).
  { unfold world.find_media in *. rewrite Hmedia.
    apply find_app_new; [exact Hfresh|].
    unfold world.has, dict_get. rewrite Hid. apply eq_str_true. }
  split.
  - intros Hfault. rewrite <- Horacles in Hfault.
    rewrite (get_media_by_id_found _ _ _ _ _ Hfind Hfault Howner).
    rewrite eq_str_true. reflexivity.
  - intros other Hne Hfault. rewrite <- Horacles in Hfault.
    rewrite (get_media_by_id_found _ _ _ _ _ Hfind Hfault Howner).
    rewrite eq_str_false by congruence. reflexivity.
Qed.

(** The sample PNG, uploaded by [a1], read by [a1] and by [b2]. *)
Lemma X5_witness :
  let r := run world.reference
             (routes_media.upload_media sample.png (Some "a dog") None "a1")
             sample.w0 in
  exists asset,
    result_of r = Returned asset
    /\ result_of (run world.reference
                    (routes_media.get_media_by_id "id-4" "a1") (state_of r))
       = Returned asset
    /\ result_of (run world.reference
                    (routes_media.get_media_by_id "id-4" "b2") (state_of r))
       = Raised access_forbidden.
Proof.
  intros r. eexists. split; [reflexivity|].
  destruct (X5_upload_then_get sample.w0 sample.png (Some "a dog") None "a1"
              "id-4" _ eq_refl eq_refl eq_refl) as [Hown Hother].
  split; [apply Hown; reflexivity|].
  apply Hother; [discriminate|reflexivity].
Defined.

(** ** Register, authenticate, log in *)

Lemma find_none_existsb {A} (p : A -> bool) (l : list A) :
  List.find p l = None -> existsb p l = false.
Proof.
  induction l as [|x l IH]; simpl; [reflexivity|].
  destruct (p x); [discriminate|]. exact IH.
Qed.

Section account_record.
Variables (account_id : string) (p : UserCreate) (hashed : string) (now : Z).

Let account := account_record account_id p hashed now.

Lemma account_record_id : account !! "id" = Some (JStr account_id).
Proof. apply lookup_insert_eq. Qed.

Lemma account_record_username :
  account !! "username" = Some (JStr (uc_username p)).
Proof.
  unfold account, account_record.
  rewrite lookup_insert_ne by discriminate. apply lookup_insert_eq.
Qed.

Lemma account_record_email : account !! "email" = Some (JStr (uc_email p)).
Proof.
  unfold account, account_record.
  do 2 rewrite lookup_insert_ne by discriminate. apply lookup_insert_eq.
Qed.

Lemma account_record_hashed_password :
  account !! "hashed_password" = Some (JStr hashed).
Proof.
  unfold account, account_record.
  do 3 rewrite lookup_insert_ne by discriminate. apply lookup_insert_eq.
Qed.

Lemma account_record_created_at : account !! "created_at" = Some (JInt now).
Proof.
  unfold account, account_record.
  do 4 rewrite lookup_insert_ne by discriminate. apply lookup_insert_eq.
Qed.
End account_record.

Arguments account_record : simpl never.
Arguments identity_claims : simpl never.

(** What a registration that succeeds has done. *)
Lemma register_returned
    (settings : Settings) (w : world.World) (p : UserCreate) (tok : Token) :
  let r := run world.reference (routes_auth.register settings p) w in
  let id := world.uuid_of (world.oracles w) (world.counter w) in
  let account :=
    account_record id p (world.hash_of (world.oracles w) (uc_password p))
      (world.clock w) in
  result_of r = Returned tok ->
  List.find (world.has "email" (uc_email p)) (world.users w) = None
  /\ tok = {| tk_token :=
                Signed (identity_claims settings (JStr id) (JStr (uc_email p))
                          (world.clock w))
                  (jwt_secret_key settings) (jwt_algorithm settings);
              tk_user := {| ur_id := JStr id;
                            ur_username := JStr (uc_username p);
                            ur_email := JStr (uc_email p);
                            ur_createdAt := JInt (world.clock w) |} |}
  /\ state_of r = world.with_users (world.fresh w) (world.users w ++ [account])
  /\ world.faults (world.oracles w)
       (cosmos_db_get_user_by_email (uc_email p)) = None.
Proof.
  intros r id account. subst r.
  unfold routes_auth.register, auth.compute_digest, auth.generate_jwt_token,
    getitem.
  simpl. unfold world.faulty.
  destruct (world.faults (world.oracles w)
              (cosmos_db_get_user_by_email (uc_email p))) as [e|] eqn:Hf; simpl.
  { destruct e as [? ? ?|[] ?]; simpl; discriminate. }
  destruct (List.find (world.has "email" (uc_email p)) (world.users w))
    as [a|] eqn:Hfind; simpl.
  { rewrite (truthy_dict_lookup _ _ _ (find_has _ _ _ _ Hfind)). simpl.
    discriminate. }
  unfold truthy_dict. simpl. unfold world.faulty. simpl.
  change (<["id":=JStr (world.uuid_of (world.oracles w) (world.counter w))]>
            (<["username":=JStr (uc_username p)]>
               (<["email":=JStr (uc_email p)]>
                  (<["hashed_password":=
                       JStr (world.hash_of (world.oracles w) (uc_password p))]>
                     (<["created_at":=JInt (world.clock w)]> ∅)))))
    with account.
  destruct (world.faults (world.oracles w) (cosmos_db_create_user account))
    as [e|] eqn:Hc; simpl.
  { destruct e as [? ? ?|[] ?]; simpl; discriminate. }
  unfold world.create_user.
  destruct (existsb _ _) eqn:Hex; simpl; [discriminate|].
  unfold account.
  rewrite account_record_id, account_record_username, account_record_email,
    account_record_created_at. simpl.
  rewrite timegm_default.
  intros Hres. inversion Hres. repeat split.
Qed.

Lemma identity_claims_exp (settings : Settings) (id email : json) (now : Z) :
  identity_claims settings id email now !! "exp"
  = Some (JInt (now + 60 * jwt_access_token_expire_minutes settings)).
Proof. apply lookup_insert_eq. Qed.

Lemma identity_claims_sub (settings : Settings) (id email : json) (now : Z) :
  identity_claims settings id email now !! "sub" = Some id.
Proof.
  unfold identity_claims. rewrite lookup_insert_ne by discriminate.
  apply lookup_insert_eq.
Qed.

Lemma identity_claims_email (settings : Settings) (id email : json) (now : Z) :
  identity_claims settings id email now !! "email" = Some email.
Proof.
  unfold identity_claims. do 2 rewrite lookup_insert_ne by discriminate.
  apply lookup_insert_eq.
Qed.

Lemma identity_claims_plain (settings : Settings) (id email : json)
    (now : Z) :
  plain (identity_claims settings id email now).
Proof.
  unfold plain, identity_claims.
  repeat split; repeat (rewrite lookup_insert_ne by discriminate);
    apply lookup_empty.
Qed.

(** A token over the identity claims of an account with a string id
    authenticates as that id until it expires, and not afterwards. *)
Lemma identity_token_authenticates
    (settings : Settings) (id : string) (email : json) (now : Z)
    (w : world.World) (scheme : string) :
  let cred :=
    {| scheme := scheme;
       credentials :=
         Signed (identity_claims settings (JStr id) email now)
           (jwt_secret_key settings) (jwt_algorithm settings) |} in
  let expire := now + 60 * jwt_access_token_expire_minutes settings in
  (world.clock w <= expire ->
   result_of (run world.reference
                (auth.extract_authenticated_id settings cred) w)
   = Returned (JStr id))
  /\ (expire < world.clock w ->
      result_of (run world.reference
                   (auth.extract_authenticated_id settings cred) w)
      = Raised auth.credentials_exception).
Proof.
  intros cred expire.
  rewrite (extract_authenticated_id_result settings world.reference w w cred
             (world.decode (credentials cred) (jwt_secret_key settings)
                [jwt_algorithm settings] w) eq_refl).
  subst cred. unfold credentials. split; intros Hc.
  - rewrite (decode_signed _ _ _ _ (identity_claims_plain _ _ _ _)
               (live_until _ _ _ (identity_claims_exp _ _ _ _) Hc)).
    rewrite identity_claims_sub. unfold dict_get.
    rewrite identity_claims_sub. reflexivity.
  - destruct (identity_claims_plain settings (JStr id) email now)
      as (Hiat & Hnbf & _).
    rewrite (decode_expired _ _ _ _ _ Hiat Hnbf
               (identity_claims_exp _ _ _ _) Hc).
    reflexivity.
Qed.

(** X6. In the reference world, the token a registration returns
    authenticates its bearer as the id of the account just created, in
    any later state of the world, as long as the clock has not passed
    the instant of the registration plus the configured lifetime;
    afterwards it is refused with the 401 of [parse_jwt_payload]. *)
Theorem X6_registered_token_authenticates
    (settings : Settings) (w w' : world.World) (p : UserCreate) (tok : Token)
    (scheme : string) :
  result_of (run world.reference (routes_auth.register settings p) w)
    = Returned tok ->
  let cred := {| scheme := scheme; credentials := tk_token tok |} in
  let expire :=
    world.clock w + 60 * jwt_access_token_expire_minutes settings in
  (world.clock w' <= expire ->
   result_of (run world.reference
                (auth.extract_authenticated_id settings cred) w')
   = Returned (ur_id (tk_user tok)))
  /\ (expire < world.clock w' ->
      result_of (run world.reference
                   (auth.extract_authenticated_id settings cred) w')
      = Raised auth.credentials_exception).
Proof.
  intros Hres cred expire.
  destruct (register_returned settings w p tok Hres) as (_ & -> & _).
  exact (identity_token_authenticates settings _ _ _ w' scheme).
Qed.

(** The token of a new account [bob], at its last valid instant and one
    second later. *)
Lemma X6_witness :
  exists tok,
    result_of (run world.reference
                 (routes_auth.register sample.settings0 scenario.bob)
                 sample.w0) = Returned tok
    /\ result_of (run world.reference
                    (auth.extract_authenticated_id sample.settings0
                       (sample.bearer (tk_token tok)))
                    (sample.at_time 2800)) = Returned (JStr "id-2")
    /\ result_of (run world.reference
                    (auth.extract_authenticated_id sample.settings0
                       (sample.bearer (tk_token tok)))
                    (sample.at_time 2801))
       = Raised auth.credentials_exception.
Proof.
  eexists. split; [reflexivity|]. split.
  - apply (proj1 (X6_registered_token_authenticates sample.settings0
                    sample.w0 (sample.at_time 2800) scenario.bob _ "Bearer"
                    eq_refl)).
    vm_compute. discriminate.
  - apply (proj2 (X6_registered_token_authenticates sample.settings0
                    sample.w0 (sample.at_time 2801) scenario.bob _ "Bearer"
                    eq_refl)).
    reflexivity.
Defined.

(** What a login that succeeds has found. *)
Lemma login_returned
    (settings : Settings) (w : world.World) (p : LoginRequest) (tok : Token) :
  let r := run world.reference (routes_auth.login settings p) w in
  result_of r = Returned tok ->
  exists account digest id email username created_at,
    List.find (world.has "email" (lr_email p)) (world.users w) = Some account
    /\ account !! "hashed_password" = Some digest
    /\ world.verify_of (world.oracles w) (lr_password p) digest = true
    /\ account !! "id" = Some id
    /\ account !! "email" = Some email
    /\ account !! "username" = Some username
    /\ account !! "created_at" = Some created_at
    /\ tok = {| tk_token :=
                  Signed (identity_claims settings id email (world.clock w))
                    (jwt_secret_key settings) (jwt_algorithm settings);
                tk_user := {| ur_id := id; ur_username := username;
                              ur_email := email;
                              ur_createdAt := created_at |} |}
    /\ state_of r = w.
Proof.
  intros r. subst r.
  unfold routes_auth.login, auth.validate_credential, auth.generate_jwt_token,
    getitem, the.
  simpl. unfold world.faulty.
  destruct (world.faults (world.oracles w)
              (cosmos_db_get_user_by_email (lr_email p))) as [e|] eqn:Hf; simpl.
  { destruct e as [? ? ?|[] ?]; simpl; discriminate. }
  destruct (List.find (world.has "email" (lr_email p)) (world.users w))
    as [account|] eqn:Hfind; simpl.
  2: { unfold truthy_dict. simpl. discriminate. }
  rewrite (truthy_dict_lookup _ _ _ (find_has _ _ _ _ Hfind)). simpl.
  destruct (account !! "hashed_password") as [digest|] eqn:Hd; simpl;
    [|discriminate].
  destruct (world.verify_of (world.oracles w) (lr_password p) digest)
    eqn:Hv; simpl; [|discriminate].
  destruct (account !! "id") as [id|] eqn:Hid; simpl; [|discriminate].
  destruct (account !! "email") as [email|] eqn:He; simpl; [|discriminate].
  destruct (account !! "username") as [username|] eqn:Hu; simpl;
    [|discriminate].
  destruct (account !! "created_at") as [created_at|] eqn:Hc; simpl;
    [|discriminate].
  rewrite timegm_default.
  intros Hres. injection Hres as <-.
  exists account, digest, id, email, username, created_at.
  repeat split; assumption.
Qed.

(** X7. In the reference world, a login returns a token only when the
    account store holds an account under the supplied email and the
    supplied password verifies against the digest stored with it; the
    token is signed over the id and email of that account, expires the
    configured lifetime after the login, and the login changes nothing
    in the world. *)
Theorem X7_login_returns_stored_identity
    (settings : Settings) (w : world.World) (p : LoginRequest) (tok : Token) :
  let r := run world.reference (routes_auth.login settings p) w in
  result_of r = Returned tok ->
  exists account digest,
    List.find (world.has "email" (lr_email p)) (world.users w) = Some account
    /\ account !! "hashed_password" = Some digest
    /\ world.verify_of (world.oracles w) (lr_password p) digest = true
    /\ account !! "id" = Some (ur_id (tk_user tok))
    /\ account !! "email" = Some (ur_email (tk_user tok))
    /\ tk_token tok
       = Signed (identity_claims settings (ur_id (tk_user tok))
                   (ur_email (tk_user tok)) (world.clock w))
           (jwt_secret_key settings) (jwt_algorithm settings)
    /\ state_of r = w.
Proof.
  intros r Hres.
  destruct (login_returned settings w p tok Hres)
    as (account & digest & id & email & username & created_at & Hfind & Hd
        & Hv & Hid & He & _ & _ & -> & Hstate).
  exists account, digest. simpl. repeat split; assumption.
Qed.

(** The login of [alice] in the sample world. *)
Lemma X7_witness :
  let p := {| lr_email := "alice@example.org";
              lr_password := "wonderland" |} in
  let r := run world.reference (routes_auth.login sample.settings0 p)
             sample.w0 in
  exists tok account digest,
    result_of r = Returned tok
    /\ List.find (world.has "email" "alice@example.org")
         (world.users sample.w0) = Some account
    /\ account !! "hashed_password" = Some digest
    /\ world.verify_of sample.oracles0 "wonderland" digest = true
    /\ state_of r = sample.w0.
Proof.
  intros p r.
  destruct (X7_login_returns_stored_identity sample.settings0 sample.w0 p _
              eq_refl)
    as (account & digest & Hfind & Hd & Hv & _ & _ & _ & Hstate).
  eexists. exists account, digest.
  split; [reflexivity|]. repeat split; assumption.
Defined.

(** The outcome of a login for a stored, complete account. *)
Lemma login_found
    (settings : Settings) (w : world.World) (p : LoginRequest)
    (account : dict) (digest id email username created_at : json) :
  List.find (world.has "email" (lr_email p)) (world.users w) = Some account ->
  world.faults (world.oracles w)
    (cosmos_db_get_user_by_email (lr_email p)) = None ->
  account !! "hashed_password" = Some digest ->
  account !! "id" = Some id ->
  account !! "email" = Some email ->
  account !! "username" = Some username ->
  account !! "created_at" = Some created_at ->
  result_of (run world.reference (routes_auth.login settings p) w)
  = if world.verify_of (world.oracles w) (lr_password p) digest then
      Returned
        {| tk_token :=
             Signed (identity_claims settings id email (world.clock w))
               (jwt_secret_key settings) (jwt_algorithm settings);
           tk_user := {| ur_id := id; ur_username := username;
                         ur_email := email; ur_createdAt := created_at |} |}
    else Raised invalid_login.
Proof.
  intros Hfind Hfault Hd Hid He Hu Hc.
  unfold routes_auth.login, auth.validate_credential, auth.generate_jwt_token,
    getitem, the.
  simpl. unfold world.faulty, world.get_user_by_email.
  rewrite Hfault, Hfind. simpl.
  rewrite (truthy_dict_lookup _ _ _ Hd). simpl. rewrite Hd. simpl.
  destruct (world.verify_of (world.oracles w) (lr_password p) digest); simpl;
    [|reflexivity].
  rewrite Hid, He. simpl. rewrite Hu, Hc. simpl. rewrite timegm_default.
  reflexivity.
Qed.

(** X8. In the reference world, once a registration has succeeded, a
    login with the registered email, in any world with the same
    accounts, succeeds exactly when the password verifies against the
    digest of the registered password: it then returns the same account
    under a token signed for the same id; otherwise it fails with the
    401 of [login]. *)
Theorem X8_register_then_login
    (settings : Settings) (w w2 : world.World) (p : UserCreate) (tok : Token)
    (password : string) :
  let r := run world.reference (routes_auth.register settings p) w in
  result_of r = Returned tok ->
  world.users w2 = world.users (state_of r) ->
  world.oracles w2 = world.oracles w ->
  let digest := JStr (world.hash_of (world.oracles w) (uc_password p)) in
  result_of (run world.reference
               (routes_auth.login settings
                  {| lr_email := uc_email p; lr_password := password |}) w2)
  = if world.verify_of (world.oracles w) password digest then
      Returned
        {| tk_token :=
             Signed (identity_claims settings (ur_id (tk_user tok))
                       (JStr (uc_email p)) (world.clock w2))
               (jwt_secret_key settings) (jwt_algorithm settings);
           tk_user := tk_user tok |}
    else Raised invalid_login.
Proof.
  intros r Hres Husers Horacles digest.
  destruct (register_returned settings w p tok Hres)
    as (Hnone & -> & Hstate & Hfault).
  fold r in Hstate. rewrite Hstate in Husers. simpl in Husers.
  replace (world.verify_of (world.oracles w))
    with (world.verify_of (world.oracles w2))
    by (rewrite Horacles; reflexivity).
  eapply login_found.
  - simpl. rewrite Husers. apply find_app_new; [exact Hnone|].
    unfold world.has, dict_get. rewrite account_record_email.
    apply eq_str_true.
  - simpl. rewrite Horacles. exact Hfault.
  - apply account_record_hashed_password.
  - apply account_record_id.
  - apply account_record_email.
  - apply account_record_username.
  - apply account_record_created_at.
Qed.

(** [bob] registers, then logs in with the right and with a wrong
    password. *)
Lemma X8_witness :
  let w1 := state_of (run world.reference
                        (routes_auth.register sample.settings0 scenario.bob)
                        sample.w0) in
  let login password :=
    result_of (run world.reference
                 (routes_auth.login sample.settings0
                    {| lr_email := "bob@example.org";
                       lr_password := password |}) w1) in
  exists tok,
    result_of (run world.reference
                 (routes_auth.register sample.settings0 scenario.bob)
                 sample.w0) = Returned tok
    /\ login "builder"
       = Returned
           {| tk_token :=
                Signed (identity_claims sample.settings0 (JStr "id-2")
                          (JStr "bob@example.org") 1000) "secret" "HS256";
              tk_user := tk_user tok |}
    /\ login "hammer" = Raised invalid_login.
Proof.
  intros w1 login. eexists. split; [reflexivity|]. split.
  - exact (X8_register_then_login sample.settings0 sample.w0 w1 scenario.bob
             _ "builder" eq_refl eq_refl eq_refl).
  - exact (X8_register_then_login sample.settings0 sample.w0 w1 scenario.bob
             _ "hammer" eq_refl eq_refl eq_refl).
Defined.

(** ** Update and delete *)

(** X9. Whatever the environment, when the lookup of an update or of a
    delete finds nothing, or finds an asset of another owner, the route
    makes no further call: the lookup is the only event of the run, the
    state is the one the lookup left, and the request fails with the 404
    or with the 403 of that route. *)
Theorem X9_non_owner_changes_nothing
    (E : Env) (s s1 : St E) (media_id user_id : string)
    (payload : MediaUpdate) (found : option dict) :
  answer E (cosmos_db_get_media_by_id media_id user_id) s
    = (Returned found, s1) ->
  match found with
  | Some asset => exists owner,
      asset !! "userId" = Some owner /\ owner ≠ JStr user_id
  | None => True
  end ->
  let failure (forbidden : exn) :=
    match found with Some _ => forbidden | None => media_not_found end in
  run E (routes_media.update_media_metadata media_id payload user_id) s
  = ([EvCall (cosmos_db_get_media_by_id media_id user_id)], s1,
     Raised (failure update_forbidden))
  /\ run E (routes_media.delete_media media_id user_id) s
  = ([EvCall (cosmos_db_get_media_by_id media_id user_id)], s1,
     Raised (failure delete_forbidden)).
Proof.
  intros Hget Hfound failure. subst failure.
  unfold routes_media.update_media_metadata, routes_media.delete_media,
    getitem, the.
  destruct found as [asset|].
  - destruct Hfound as (owner & Howner & Hne).
    pose proof (truthy_dict_lookup _ _ _ Howner) as Ht.
    pose proof (eq_str_false _ _ Hne) as Hq.
    split; step; reflexivity.
  - split; step; reflexivity.
Qed.

(** Account [b2] tries to update and to delete the photo of [a1]. *)
Lemma X9_witness :
  let payload := {| mu_description := Some "mine"; mu_tags := None |} in
  run world.reference
    (routes_media.update_media_metadata "m1" payload "b2") sample.w0
  = ([EvCall (cosmos_db_get_media_by_id "m1" "b2")], sample.w0,
     Raised update_forbidden)
  /\ run world.reference (routes_media.delete_media "m1" "b2") sample.w0
     = ([EvCall (cosmos_db_get_media_by_id "m1" "b2")], sample.w0,
        Raised delete_forbidden).
Proof.
  intros payload.
  apply (X9_non_owner_changes_nothing world.reference sample.w0 sample.w0
           "m1" "b2" payload (Some sample.photo) eq_refl).
  exists (JStr "a1"). split; [reflexivity|discriminate].
Defined.

(** X10. Whatever the environment, a delete by the owner whose calls all
    succeed makes, in this order, the lookup, the deletion of the
    primary blob, the deletion of the thumbnail blob when the record has
    a thumbnail, under the storage key of the primary blob with the file
    name replaced by its [thumb_] form, and the deletion of the record;
    it makes no other call and returns nothing. *)
Theorem X10_delete_media_call_sequence
    (E : Env) (s s1 s2 s3 s4 : St E) (media_id user_id name original : string)
    (asset : dict) :
  answer E (cosmos_db_get_media_by_id media_id user_id) s
    = (Returned (Some asset), s1) ->
  asset !! "userId" = Some (JStr user_id) ->
  asset !! "fileName" = Some (JStr name) ->
  asset !! "originalFileName" = Some (JStr original) ->
  answer E (blob_storage_delete_file (JStr name)) s1 = (Returned tt, s2) ->
  let preview_identifier :=
    replace name (split_last "/" "" original)
      ("thumb_" ++ split_last "/" "" original) in
  (truthy (dict_get asset "thumbnailUrl") = false ->
   answer E (cosmos_db_delete_media media_id user_id) s2 = (Returned tt, s4) ->
   run E (routes_media.delete_media media_id user_id) s
   = ([EvCall (cosmos_db_get_media_by_id media_id user_id);
       EvCall (blob_storage_delete_file (JStr name));
       EvCall (cosmos_db_delete_media media_id user_id)], s4, Returned tt))
  /\ (truthy (dict_get asset "thumbnailUrl") = true ->
      answer E (blob_storage_delete_file (JStr preview_identifier)) s2
        = (Returned tt, s3) ->
      answer E (cosmos_db_delete_media media_id user_id) s3
        = (Returned tt, s4) ->
      run E (routes_media.delete_media media_id user_id) s
      = ([EvCall (cosmos_db_get_media_by_id media_id user_id);
          EvCall (blob_storage_delete_file (JStr name));
          EvCall (blob_storage_delete_file (JStr preview_identifier));
          EvCall (cosmos_db_delete_media media_id user_id)], s4, Returned tt)).
Proof.
  intros Hget Howner Hname Horig Hdel preview_identifier.
  pose proof (truthy_dict_lookup _ _ _ Howner) as Ht.
  pose proof (eq_str_true user_id) as Hq.
  subst preview_identifier.
  unfold routes_media.delete_media, getitem, the.
  split.
  - intros Hthumb Hmeta. step. rewrite Hthumb. step. reflexivity.
  - intros Hthumb Hprev Hmeta. step. rewrite Hthumb. step. reflexivity.
Qed.

(** [a1] deletes the sample photo, which has a thumbnail. *)
Lemma X10_witness :
  exists s,
    run world.reference (routes_media.delete_media "m1" "a1") sample.w0
    = ([EvCall (cosmos_db_get_media_by_id "m1" "a1");
        EvCall (blob_storage_delete_file (JStr "a1/0_cat.png"));
        EvCall (blob_storage_delete_file (JStr "a1/0_thumb_cat.png"));
        EvCall (cosmos_db_delete_media "m1" "a1")], s, Returned tt).
Proof.
  eexists.
  eapply (proj2 (X10_delete_media_call_sequence world.reference sample.w0
                   sample.w0 _ _ _ "m1" "a1" "a1/0_cat.png" "cat.png"
                   sample.photo eq_refl eq_refl eq_refl eq_refl eq_refl));
    reflexivity.
Defined.

(** X11. Whatever the environment, when a registration for an email
    not yet known reaches the account store and the creation of the
    account raises, the failure is surfaced by kind: an [HTTPException]
    as it is, a [ValueError] as a 400 whose detail is the text of the
    error, anything else as a 500 whose detail is "Failed to register
    user: " followed by the text of the error. *)
Theorem X11_register_store_failures
    (settings : Settings) (E : Env) (s s1 s2 s3 s4 s5 : St E)
    (account_params : UserCreate) (account_id hashed : string)
    (created_at : Z) (e : exn) (found : option dict) :
  answer E (cosmos_db_get_user_by_email (uc_email account_params)) s
    = (Returned found, s1) ->
  truthy_dict found = false ->
  reply E uuid4 s1 = (account_id, s2) ->
  answer E (cipher_provider_hash (uc_password account_params)) s2
    = (Returned hashed, s3) ->
  reply E utcnow s3 = (created_at, s4) ->
  answer E (cosmos_db_create_user
              (account_record account_id account_params hashed created_at)) s4
    = (Raised e, s5) ->
  result_of (run E (routes_auth.register settings account_params) s)
  = Raised
      (if is_HTTPException e then e
       else if is_ValueError e then
         HTTPException HTTP_400_BAD_REQUEST (str_exn e) None
       else
         HTTPException HTTP_500_INTERNAL_SERVER_ERROR
           ("Failed to register user: " ++ str_exn e) None).
Proof.
  intros Hfind Hfalsy Hid Hhash Hnow Hcreate.
  unfold routes_auth.register, auth.compute_digest.
  simpl. rewrite Hfind. simpl. rewrite Hfalsy. simpl. rewrite Hid. simpl.
  rewrite Hhash. simpl. rewrite Hnow. simpl.
  change (<["id":=JStr account_id]> _)
    with (account_record account_id account_params hashed created_at).
  rewrite Hcreate. simpl.
  destruct e as [? ? ?|[] ?]; reflexivity.
Qed.

(** [bob] registers while the account store refuses writes. *)
Lemma X11_witness :
  result_of (run world.reference
               (routes_auth.register sample.settings0 scenario.bob)
               (sample.failing scenario.account_write_fails))
  = Raised (HTTPException HTTP_500_INTERNAL_SERVER_ERROR
              "Failed to register user: document store unavailable" None).
Proof.
  exact (X11_register_store_failures sample.settings0 world.reference
           (sample.failing scenario.account_write_fails) _ _ _ _ _
           scenario.bob _ _ _ scenario.unavailable None
           eq_refl eq_refl eq_refl eq_refl eq_refl eq_refl).
Defined.

(** X12. Whatever the environment, when an update by the owner reaches
    the asset store and the store raises, the failure is surfaced by
    kind: an [HTTPException] as it is, a [ValueError] as a 404 whose
    detail is the text of the error, anything else as the 500 "Failed to
    update media", which does not carry the text of the error. *)
Theorem X12_update_store_failures
    (E : Env) (s s1 s2 s3 : St E) (media_id user_id : string)
    (payload : MediaUpdate) (asset : dict) (now : Z) (e : exn) :
  answer E (cosmos_db_get_media_by_id media_id user_id) s
    = (Returned (Some asset), s1) ->
  asset !! "userId" = Some (JStr user_id) ->
  reply E utcnow s1 = (now, s2) ->
  answer E (cosmos_db_update_media media_id user_id
              (property_changes now payload)) s2 = (Raised e, s3) ->
  result_of (run E (routes_media.update_media_metadata media_id payload
                      user_id) s)
  = Raised
      (if is_HTTPException e then e
       else if is_ValueError e then
         HTTPException HTTP_404_NOT_FOUND (str_exn e) None
       else
         HTTPException HTTP_500_INTERNAL_SERVER_ERROR
           "Failed to update media" None).
Proof.
  intros Hget Howner Hnow Hupd.
  pose proof (truthy_dict_lookup _ _ _ Howner) as Ht.
  pose proof (eq_str_true user_id) as Hq.
  unfold routes_media.update_media_metadata, getitem, the.
  step. rewrite Hnow. simpl.
  fold (property_changes now payload). rewrite Hupd. simpl.
  destruct e as [? ? ?|[] ?]; reflexivity.
Qed.

(** [a1] updates the sample photo while the store reports it gone. *)
Lemma X12_witness :
  let payload := {| mu_description := Some "mine"; mu_tags := None |} in
  result_of (run world.reference
               (routes_media.update_media_metadata "m1" payload "a1")
               (sample.failing scenario.record_gone))
  = Raised media_not_found.
Proof.
  intros payload.
  exact (X12_update_store_failures world.reference
           (sample.failing scenario.record_gone) _ _ _ "m1" "a1" payload
           sample.photo 1000 (Error ValueError "Media not found")
           eq_refl eq_refl eq_refl eq_refl).
Defined.

(** ** What an upload calls *)

(** X13. Whatever the environment, the upload of a file that the type
    validation classifies as anything but an image never calls the
    thumbnail helper, and the only blob it can write is the file itself,
    under the caller, the name and the content type of the request. *)
Theorem X13_upload_other_kinds_have_no_thumbnail
    (E : Env) (s s1 : St E) (f : UploadFile) (description tags : option string)
    (user_id kind : string) :
  answer E (validate_file_type f) s = (Returned kind, s1) ->
  kind ≠ "image" ->
  let tr := trace_of (run E (routes_media.upload_media f description tags
                               user_id) s) in
  (forall data, ~ called (generate_thumbnail data) tr)
  /\ (forall data owner name mime,
        called (blob_storage_upload_file data owner name mime) tr ->
        data = file f /\ owner = user_id /\ name = filename f
        /\ mime = content_type f).
Proof.
  intros Hkind Hne tr. subst tr.
  assert (Hq : String.eqb kind "image" = false)
    by (apply String.eqb_neq; exact Hne).
  unfold routes_media.upload_media, routes_media.MediaResponse.
  simpl. rewrite Hkind.
  env_cases.
  all: split; [intros data; unfold not|]; in_trace.
Qed.

(** The upload of a video by [a1]. *)
Lemma X13_witness :
  let tr := trace_of (run world.reference
                        (routes_media.upload_media scenario.mp4 None None
                           "a1") sample.w0) in
  exists data owner name mime,
    called (blob_storage_upload_file data owner name mime) tr
    /\ data = "0101" /\ owner = "a1" /\ name = "clip.mp4"
    /\ mime = "video/mp4".
Proof.
  intros tr.
  assert (Hcalled : called (blob_storage_upload_file "0101" "a1" "clip.mp4"
                              "video/mp4") tr)
    by (do 4 right; left; reflexivity).
  exists "0101", "a1", "clip.mp4", "video/mp4".
  split; [exact Hcalled|].
  apply (proj2 (X13_upload_other_kinds_have_no_thumbnail world.reference
                  sample.w0 sample.w0 scenario.mp4 None None "a1" "video"
                  eq_refl ltac:(discriminate))).
  exact Hcalled.
Defined.

(** ** What upload and register leave behind *)

Lemma upload_media_keeps_stored
    (f : UploadFile) (description tags : option string) (user_id : string) :
  all_calls keeps_stored (routes_media.upload_media f description tags user_id).
Proof.
  unfold routes_media.upload_media, routes_media.MediaResponse, log, call_,
    ask.
  walk.
Qed.

Lemma register_keeps_stored (settings : Settings) (p : UserCreate) :
  all_calls keeps_stored (routes_auth.register settings p).
Proof.
  unfold routes_auth.register, auth.compute_digest, auth.generate_jwt_token,
    getitem, log, call_, ask.
  walk.
Qed.

(** X14. Whatever they are answered, and however they end, an upload
    and a registration call nothing that deletes or updates a blob or a
    record: what an earlier step of a failed request has written is not
    removed by the route. *)
Theorem X14_upload_and_register_remove_nothing
    (settings : Settings) (E : Env) (s : St E) (c : call) :
  (forall f description tags user_id,
     called c (trace_of (run E (routes_media.upload_media f description tags
                                  user_id) s)) ->
     keeps_stored c)
  /\ (forall account_params,
     called c (trace_of (run E (routes_auth.register settings account_params)
                           s)) ->
     keeps_stored c).
Proof.
  split.
  - intros f d t u.
    apply (all_calls_trace E keeps_stored _
             (upload_media_keeps_stored f d t u)).
  - intros p.
    apply (all_calls_trace E keeps_stored _
             (register_keeps_stored settings p)).
Qed.

(** The blob write of the upload of a video. *)
Lemma X14_witness :
  let tr := trace_of (run world.reference
                        (routes_media.upload_media scenario.mp4 None None
                           "a1") sample.w0) in
  let c := blob_storage_upload_file "0101" "a1" "clip.mp4" "video/mp4" in
  called c tr /\ keeps_stored c.
Proof.
  intros tr c.
  assert (Hcalled : called c tr) by (do 4 right; left; reflexivity).
  split; [exact Hcalled|].
  exact (proj1 (X14_upload_and_register_remove_nothing sample.settings0
                  world.reference sample.w0 c)
           scenario.mp4 None None "a1" Hcalled).
Defined.

(** X15. In the reference world, an upload that fails after its primary
    blob write has succeeded leaves that blob in the blob store and adds
    no record to the asset store: the stored bytes are left without a
    record that names them. *)
Theorem X15_failed_upload_keeps_blob
    (w : world.World) (f : UploadFile) (description tags : option string)
    (user_id : string) (e : exn) :
  let r := run world.reference
             (routes_media.upload_media f description tags user_id) w in
  let primary := blob_storage_upload_file (file f) user_id (filename f)
                   (content_type f) in
  let key := world.blob_key (world.oracles w) user_id (filename f)
               (world.counter w) in
  called primary (trace_of r) ->
  world.faults (world.oracles w) primary = None ->
  result_of r = Raised e ->
  In (key, file f) (world.blobs (state_of r))
  /\ world.media (state_of r) = world.media w.
Proof.
  intros r primary key Hcalled Hfault. revert Hcalled.
  subst r primary key.
  unfold routes_media.upload_media, routes_media.MediaResponse.
  world_cases.
  all: try congruence.
  all: intros Hcalled Hres; try discriminate Hres.
  all: try (exfalso; revert Hcalled; in_trace; fail).
  all: split; [|reflexivity].
  all: simpl; rewrite ?in_app_iff; simpl; tauto.
Qed.

(** The upload of the sample PNG while the asset store refuses writes. *)
Lemma X15_witness :
  let w := sample.failing scenario.record_write_fails in
  let r := run world.reference
             (routes_media.upload_media sample.png None None "a1") w in
  result_of r
  = Raised (HTTPException HTTP_500_INTERNAL_SERVER_ERROR
              "Failed to upload media: document store unavailable" None)
  /\ In ("a1/2_dog.png", "67890") (world.blobs (state_of r))
  /\ world.media (state_of r) = [sample.photo].
Proof.
  intros w r. split; [reflexivity|].
  apply (X15_failed_upload_keeps_blob w sample.png None None "a1"
           (HTTPException HTTP_500_INTERNAL_SERVER_ERROR
              "Failed to upload media: document store unavailable" None)).
  - do 4 right. left. reflexivity.
  - reflexivity.
  - reflexivity.
Defined.

(** ** Deleting, then reading *)

Arguments world.find_media : simpl never.

Ltac store_cases :=
  repeat (simpl;
    match goal with
    | |- context [world.faulty _ _ _] => unfold world.faulty at 1
    | |- context [world.delete_media _ _ _] => unfold world.delete_media at 1
    | |- context [world.delete_file _ _] => unfold world.delete_file at 1
    | |- context [world.faults ?o ?c] => destruct (world.faults o c) eqn:?
    | |- context [truthy ?v] => destruct (truthy v) eqn:?
    | |- context [match @lookup _ _ _ _ ?k ?d with _ => _ end] =>
        destruct (d !! k) eqn:?
    | |- context [eq_str ?v ?s] => destruct (eq_str v s) eqn:?
    | |- context [match ?v with JStr _ => _ | _ => _ end] =>
        is_var v; destruct v
    | |- context [is_HTTPException ?e] => destruct (is_HTTPException e) eqn:?
    end).

Lemma delete_media_run
    (w : world.World) (media_id user_id : string) :
  match run world.reference
          (routes_media.delete_media media_id user_id) w with
  | (_, s, Returned _) => deleted w media_id user_id s
  | _ => True
  end.
Proof.
  unfold routes_media.delete_media, getitem, as_str, the.
  simpl. unfold world.faulty at 1.
  destruct (world.faults _ _) eqn:Hf0.
  { simpl. destruct (is_HTTPException e); simpl; exact I. }
  simpl.
  destruct (world.find_media media_id w) as [asset|] eqn:Hfind;
    [|simpl; exact I].
  unfold truthy_dict. destruct (bool_decide (asset = ∅)); simpl;
    [exact I|].
  store_cases.
  all: try exact I.
  all: exists asset; split; [exact Hfind|].
  all: split; [reflexivity|]; split; [reflexivity|]; split; [reflexivity|].
  all: intros name data Hname Hin; simpl in Hin.
  all: repeat (apply filter_In in Hin; destruct Hin as [Hin ?]).
  all: try congruence.
  all: repeat match goal with
       | H : _ !! "fileName" = Some (JStr ?s),
         Hn : _ !! "fileName" = Some (JStr ?n) |- _ =>
           tryif constr_eq s n then fail
           else (assert (s = n) by congruence; subst s)
       end.
  all: simpl in *.
  all: try match goal with
       | H : negb (eq_str (JStr ?n) ?n) = true |- _ =>
           rewrite eq_str_true in H; discriminate H
       end.
  rewrite Hname in Heqo0. injection Heqo0 as <-.
  rewrite eq_str_true in H. discriminate H.
Qed.

Lemma delete_media_returned
    (w : world.World) (media_id user_id : string) :
  let r := run world.reference
             (routes_media.delete_media media_id user_id) w in
  result_of r = Returned tt -> deleted w media_id user_id (state_of r).
Proof.
  intros r. subst r.
  pose proof (delete_media_run w media_id user_id) as H.
  destruct (run world.reference _ w) as [[tr s] [[]|e]]; simpl;
    [intros _; exact H|discriminate].
Qed.

Lemma find_filter_none {A} (p q : A -> bool) (l : list A) :
  (forall x, In x l -> p x = true -> q x = false) ->
  List.find p (List.filter q l) = None.
Proof.
  intros H. induction l as [|x l IH]; [reflexivity|]. simpl.
  assert (IH' : List.find p (List.filter q l) = None)
    by (apply IH; intros y Hy; apply H; right; exact Hy).
  destruct (q x) eqn:Hq; [|exact IH']. simpl.
  destruct (p x) eqn:Hp; [|exact IH'].
  rewrite (H x (or_introl eq_refl) Hp) in Hq. discriminate Hq.
Qed.

(** X16. In the reference world, after a delete that succeeded, the
    asset can no longer be read: provided the records under that id all
    belonged to the caller, [get_media_by_id] answers 404 to every
    account; and no blob is left under the storage key of the deleted
    asset. *)
Theorem X16_delete_then_get
    (w : world.World) (media_id user_id : string) :
  let r := run world.reference
             (routes_media.delete_media media_id user_id) w in
  result_of r = Returned tt ->
  (forall d, In d (world.media w) -> world.has "id" media_id d = true ->
             world.has "userId" user_id d = true) ->
  (forall reader,
     world.faults (world.oracles w)
       (cosmos_db_get_media_by_id media_id reader) = None ->
     result_of (run world.reference
                  (routes_media.get_media_by_id media_id reader) (state_of r))
     = Raised media_not_found)
  /\ (forall asset name data,
        world.find_media media_id w = Some asset ->
        asset !! "fileName" = Some (JStr name) ->
        ~ In (name, data) (world.blobs (state_of r))).
Proof.
  intros r Hres Hids.
  destruct (delete_media_returned w media_id user_id Hres)
    as (asset & Hfind & Horacles & _ & Hmedia & Hblob).
  fold r in Horacles, Hmedia, Hblob.
  clear Hres. generalize dependent (state_of r). clear r.
  intros s Horacles Hmedia Hblob.
  split.
  - intros reader Hfault. rewrite <- Horacles in Hfault.
    unfold routes_media.get_media_by_id. simpl.
    unfold world.faulty. rewrite Hfault.
    unfold world.find_media. rewrite Hmedia.
    rewrite find_filter_none; [reflexivity|].
    intros d Hin Hid. unfold world.owned.
    rewrite Hid, (Hids d Hin Hid). reflexivity.
  - intros asset' name data Hfind' Hname.
    assert (asset' = asset) by congruence. subst asset'.
    apply Hblob. exact Hname.
Qed.

(** [a1] deletes the sample photo, then asks for it. *)
Lemma X16_witness :
  let r := run world.reference (routes_media.delete_media "m1" "a1")
             sample.w0 in
  result_of r = Returned tt
  /\ result_of (run world.reference
                  (routes_media.get_media_by_id "m1" "a1") (state_of r))
     = Raised media_not_found.
Proof.
  intros r. split; [reflexivity|].
  apply (proj1 (X16_delete_then_get sample.w0 "m1" "a1" eq_refl
                  ltac:(intros d [<-|[]] _; reflexivity))).
  reflexivity.
Defined.

(** ** Updating, then reading *)

(** X17. In the reference world, after an update of an owned, existing
    asset the owner reads back the record the update returned, and any
    other account is still refused with the 403 of [get_media_by_id]:
    an update never moves an asset to another owner. *)
Theorem X17_update_then_get
    (w : world.World) (media_id user_id : string) (payload : MediaUpdate)
    (asset : dict) :
  world.find_media media_id w = Some asset ->
  asset !! "userId" = Some (JStr user_id) ->
  (forall reader,
     world.faults (world.oracles w)
       (cosmos_db_get_media_by_id media_id reader) = None) ->
  (forall changes,
     world.faults (world.oracles w)
       (cosmos_db_update_media media_id user_id changes) = None) ->
  let r := run world.reference
             (routes_media.update_media_metadata media_id payload user_id)
             w in
  exists revised,
    result_of r = Returned revised
    /\ result_of (run world.reference
                    (routes_media.get_media_by_id media_id user_id)
                    (state_of r)) = Returned revised
    /\ (forall other,
          other ≠ user_id ->
          result_of (run world.reference
                       (routes_media.get_media_by_id media_id other)
                       (state_of r)) = Raised access_forbidden).
Proof.
  intros Hfind Howner Hget Hupd r.
  pose proof (truthy_dict_lookup _ _ _ Howner) as Ht.
  pose proof (eq_str_true user_id) as Hq.
  set (changes := property_changes (world.clock w) payload).
  exists (changes ∪ asset).
  assert (Hrun :
    result_of r = Returned (changes ∪ asset)
    /\ world.oracles (state_of r) = world.oracles w
    /\ world.media (state_of r)
       = (fun x : dict =>
            if world.owned media_id user_id x then changes ∪ x else x)
           <$> world.media w).
  { subst r.
    unfold routes_media.update_media_metadata, routes_media.MediaResponse,
      getitem, the.
    simpl. unfold world.faulty. rewrite Hget, Hfind. simpl.
    rewrite Ht. simpl. rewrite Howner. simpl. rewrite Hq. simpl.
    unfold world.faulty. rewrite Hupd. unfold world.update_media.
    fold (property_changes (world.clock w) payload). fold changes.
    unfold world.find_media in Hfind.
    rewrite (find_owned _ _ _ _ Hfind Howner). simpl.
    repeat split; reflexivity. }
  destruct Hrun as (Hres & Horacles & Hmedia).
  split; [exact Hres|].
  clear Hres. generalize dependent (state_of r). clear r.
  intros s Horacles Hmedia.
  assert (Hstored : world.find_media media_id s = Some (changes ∪ asset)).
  { unfold world.find_media in *. rewrite Hmedia.
    apply find_updated; [|exact Hfind|exact Howner].
    unfold changes. rewrite property_changes_lookup. reflexivity. }
  assert (Hkept : (changes ∪ asset) !! "userId" = Some (JStr user_id)).
  { rewrite lookup_union_r; [exact Howner|].
    unfold changes. rewrite property_changes_lookup. reflexivity. }
  split.
  - rewrite (get_media_by_id_found s media_id user_id _ _ Hstored
               ltac:(rewrite Horacles; apply Hget) Hkept).
    rewrite eq_str_true. reflexivity.
  - intros other Hne.
    rewrite (get_media_by_id_found s media_id other _ _ Hstored
               ltac:(rewrite Horacles; apply Hget) Hkept).
    rewrite eq_str_false by congruence. reflexivity.
Qed.

(** [a1] updates the description of the sample photo; [a1] and [b2] then
    ask for it. *)
Lemma X17_witness :
  let payload := {| mu_description := Some "tabby"; mu_tags := None |} in
  let r := run world.reference
             (routes_media.update_media_metadata "m1" payload "a1")
             sample.w0 in
  exists revised,
    result_of r = Returned revised
    /\ result_of (run world.reference
                    (routes_media.get_media_by_id "m1" "a1") (state_of r))
       = Returned revised
    /\ result_of (run world.reference
                    (routes_media.get_media_by_id "m1" "b2") (state_of r))
       = Raised access_forbidden.
Proof.
  intros payload r.
  destruct (X17_update_then_get sample.w0 "m1" "a1" payload sample.photo
              eq_refl eq_refl (fun _ => eq_refl) (fun _ => eq_refl))
    as (revised & Hres & Hown & Hother).
  exists revised. split; [exact Hres|]. split; [exact Hown|].
  apply Hother. discriminate.
Defined.

(** ** The listing routes *)

Lemma for_each_MediaResponse (l : list dict) :
  listing.for_each listing.MediaResponse l = listing.Ret l.
Proof.
  induction l as [|x l IH]; [reflexivity|]. simpl. rewrite IH. reflexivity.
Qed.


(** X18. Whatever the document store answers, [search_media] and
    [get_media_list] make one call, for the records of the caller and
    with the page numbers of the request; a page the store returns is
    passed on with its total and those page numbers, and whatever the
    store raises, an [HTTPException] included, is logged and replaced by
    the 500 "Failed to search media", respectively "Failed to retrieve
    media list", which does not carry the text of the error. *)
Theorem X18_listing_routes_hide_store_failures
    (E : listing.Env) (s : listing.St E) (query : string)
    (page pageSize : Z) (mediaType : option string) (user_id : string) :
  let search := listing.cosmos_db_search_media user_id query page pageSize in
  let list := listing.cosmos_db_get_user_media user_id page pageSize
                mediaType in
  let failure detail :=
    HTTPException HTTP_500_INTERNAL_SERVER_ERROR detail None in
  (forall result_set result_count s1,
     listing.answer E search s = (Returned (result_set, result_count), s1) ->
     listing.run E (listing.search_media query page pageSize user_id) s
     = ([listing.EvCall search], s1,
        Returned {| listing.items := result_set;
                    listing.total := result_count;
                    listing.page := page;
                    listing.pageSize := pageSize |}))
  /\ (forall e s1,
     listing.answer E search s = (Raised e, s1) ->
     listing.run E (listing.search_media query page pageSize user_id) s
     = ([listing.EvCall search;
         listing.EvLog ERROR ("Search media error: " ++ str_exn e)], s1,
        Raised (failure "Failed to search media")))
  /\ (forall result_set result_count s1,
     listing.answer E list s = (Returned (result_set, result_count), s1) ->
     listing.run E (listing.get_media_list page pageSize mediaType user_id) s
     = ([listing.EvCall list], s1,
        Returned {| listing.items := result_set;
                    listing.total := result_count;
                    listing.page := page;
                    listing.pageSize := pageSize |}))
  /\ (forall e s1,
     listing.answer E list s = (Raised e, s1) ->
     listing.run E (listing.get_media_list page pageSize mediaType user_id) s
     = ([listing.EvCall list;
         listing.EvLog ERROR ("Get media list error: " ++ str_exn e)], s1,
        Raised (failure "Failed to retrieve media list"))).
Proof.
  intros search list failure.
  unfold listing.search_media, listing.get_media_list.
  repeat split; intros; simpl;
    match goal with
    | H : listing.answer _ ?c _ = _ |- _ =>
        fold c; first [fold search | fold list]; rewrite H
    end;
    simpl; rewrite ?for_each_MediaResponse; reflexivity.
Qed.

(** A search that finds the sample photo, and a listing that the store
    refuses. *)
Lemma X18_witness :
  listing.run scenario.catalogue (listing.search_media "cat" 1 20 "a1") tt
  = ([listing.EvCall (listing.cosmos_db_search_media "a1" "cat" 1 20)], tt,
     Returned {| listing.items := [sample.photo]; listing.total := 1;
                 listing.page := 1; listing.pageSize := 20 |})
  /\ listing.run scenario.catalogue
       (listing.get_media_list 1 20 (Some "image") "a1") tt
     = ([listing.EvCall
           (listing.cosmos_db_get_user_media "a1" 1 20 (Some "image"));
         listing.EvLog ERROR
           "Get media list error: 503: Service unavailable"], tt,
        Raised (HTTPException HTTP_500_INTERNAL_SERVER_ERROR
                  "Failed to retrieve media list" None)).
Proof.
  destruct (X18_listing_routes_hide_store_failures scenario.catalogue tt
              "cat" 1 20 (Some "image") "a1")
    as (Hfound & _ & _ & Hfailed).
  split.
  - exact (Hfound [sample.photo] 1 tt eq_refl).
  - exact (Hfailed (HTTPException 503 "Service unavailable" None) tt
             eq_refl).
Defined.
